(** * STC (Simple Tetris Clone): the SDL platform adapter

    A shallow embedding of [src/sdl/sdl_game.cpp] (class [stc::PlatformSdl])
    and the properties of its initialisation, input mapping and rendering.

    Every member function that only issues calls on SDL, SDL_mixer or the
    game engine is a function to the list of calls it issues, oldest first.
    The engine behind [mGame] is read through a record of the answers its
    queries give while one frame is rendered. *)

From Stdlib Require Import ZArith List Bool Lia String.
From Equations Require Import Equations.
Import ListNotations.
Open Scope Z_scope.

(** ** C integer conversions *)

(** The [int] and [long] expressions of the source are evaluated in [Z]:
    signed overflow is undefined in C++, so every defined execution agrees
    with the exact value.  The narrowing conversions into the 16-bit fields of
    an [SDL_Rect] wrap around and are written out. *)
Module C.

Definition Uint16 (z : Z) : Z := z mod 2 ^ 16.

Definition Sint16 (z : Z) : Z := (z + 2 ^ 15) mod 2 ^ 16 - 2 ^ 15.

Definition Uint32 (z : Z) : Z := z mod 2 ^ 32.

(** Two's complement wrap of a 32-bit [int], for the compilers that wrap. *)
Definition int32 (z : Z) : Z := (z + 2 ^ 31) mod 2 ^ 32 - 2 ^ 31.

Definition in_Sint16 (z : Z) : Prop := - 2 ^ 15 <= z < 2 ^ 15.

End C.

(** ** SDL 1.2 and SDL_mixer: the part of the interface the adapter uses *)

(** A pointer returned by the platform: [None] is [NULL]. *)
Definition handle := positive.
Definition pointer := option handle.
Definition NULL : pointer := None.

Module SDL.

(** [SDL_Rect]: [Sint16 x, y; Uint16 w, h]. *)
Record Rect := { x : Z; y : Z; w : Z; h : Z }.

(** The destination rectangle of a blit.  The source sets only [x] and [y];
    [SDL_BlitSurface] does not read the destination's [w] and [h]. *)
Record Pos := { dx : Z; dy : Z }.

(** [SDLKey]: the key symbols the source names, and any other one. *)
Inductive Key :=
| SDLK_ESCAPE | SDLK_s | SDLK_DOWN | SDLK_w | SDLK_UP | SDLK_a | SDLK_LEFT
| SDLK_d | SDLK_RIGHT | SDLK_SPACE | SDLK_F5 | SDLK_F1 | SDLK_F2 | SDLK_F3
| SDLK_other (sym : Z).

(** [SDL_Event], by its [type]; for key events the [key.keysym.sym]. *)
Inductive Event :=
| SDL_QUIT
| SDL_KEYDOWN (sym : Key)
| SDL_KEYUP (sym : Key)
| SDL_other (type : Z).

Definition SDL_INIT_AUDIO : Z := 16.
Definition SDL_INIT_VIDEO : Z := 32.
Definition AUDIO_S16 : Z := 32784.

End SDL.

(** ** The engine's declarations ([Game], absent from the sources) *)

(** Modelled from the spec: the enumeration [Game::EVENT_*] is declared with
    the engine; these are the semantic events of the closed set of the data
    model, under the names the adapter sends them with. *)
Inductive EventType :=
| EVENT_QUIT | EVENT_MOVE_DOWN | EVENT_ROTATE_CW | EVENT_MOVE_LEFT
| EVENT_MOVE_RIGHT | EVENT_DROP | EVENT_RESTART | EVENT_PAUSE
| EVENT_SHOW_NEXT | EVENT_SHOW_SHADOW.

(** Modelled from the spec: the enumeration [Game::ERROR_*] is declared with
    the engine; these are the statuses [init] returns, which the error
    taxonomy takes to be distinct from each other and from success. *)
Inductive ErrorCode :=
| ERROR_NONE | ERROR_PLATFORM | ERROR_NO_VIDEO | ERROR_NO_IMAGES.

(** The constants of [Game] the adapter reads; their values are declared
    with the engine and are parameters here. *)
Class GameConstants := {
  TETROMINO_SIZE : Z;
  BOARD_TILEMAP_WIDTH : Z;
  BOARD_TILEMAP_HEIGHT : Z;
  EMPTY_CELL : Z;
  COLOR_WHITE : Z; COLOR_ORANGE : Z; COLOR_CYAN : Z; COLOR_PURPLE : Z;
  COLOR_GREEN : Z; COLOR_RED : Z; COLOR_YELLOW : Z; COLOR_BLUE : Z;
  TETROMINO_L : Z; TETROMINO_I : Z; TETROMINO_T : Z; TETROMINO_S : Z;
  TETROMINO_Z : Z; TETROMINO_O : Z; TETROMINO_J : Z
}.

Module StcTetromino.
(** Modelled from the spec: a piece as [nextBlock()] and [fallingBlock()]
    give it, a grid of cells and a position.  [cells[i][j]] is [cells i j];
    the loops read it inside the grid only. *)
Record t := { cells : Z -> Z -> Z; x : Z; y : Z }.
End StcTetromino.

Module StcStatistics.
(** Modelled from the spec: what [stats()] gives; [pieces[shape]] is
    [pieces shape]. *)
Record t := {
  score : Z; lines : Z; totalPieces : Z; level : Z;
  pieces : Z -> Z
}.
End StcStatistics.

(** Modelled from the spec: the queries of the engine, as what the engine
    answers while one frame is rendered.  Its state changes only when it is
    told so ([onChangeProcessed], [onEventStart], [onEventEnd]), and the
    rendering pass issues the first of these after its last query. *)
Record Game := {
  hasChanged : bool;
  showPreview : bool;
  showShadow : bool;
  shadowGap : Z;
  nextBlock : StcTetromino.t;
  fallingBlock : StcTetromino.t;
  getCell : Z -> Z -> Z;
  stats : StcStatistics.t;
  isPaused : bool
}.

(** ** The adapter's declarations ([sdl_game.hpp], absent from the sources) *)

(** The layout constants and asset paths of the adapter; their values are
    declared in the header and are parameters here. *)
Class PlatformConstants := {
  SCREEN_WIDTH : Z; SCREEN_HEIGHT : Z;
  SCREEN_BIT_DEPTH : Z; SCREEN_VIDEO_MODE : Z;
  STC_GAME_NAME : string;
  STC_BMP_TILE_BLOCKS : string; STC_BMP_BACKGROUND : string;
  STC_BMP_NUMBERS : string;
  STC_SND_MUSIC : string; STC_SND_LINE : string; STC_SND_DROP : string;
  TILE_SIZE : Z;
  BOARD_X : Z; BOARD_Y : Z;
  PREVIEW_X : Z; PREVIEW_Y : Z;
  SCORE_X : Z; SCORE_Y : Z; SCORE_LENGTH : Z;
  LINES_X : Z; LINES_Y : Z; LINES_LENGTH : Z;
  LEVEL_X : Z; LEVEL_Y : Z; LEVEL_LENGTH : Z;
  TETROMINO_X : Z;
  TETROMINO_L_Y : Z; TETROMINO_I_Y : Z; TETROMINO_T_Y : Z;
  TETROMINO_S_Y : Z; TETROMINO_Z_Y : Z; TETROMINO_O_Y : Z;
  TETROMINO_J_Y : Z;
  TETROMINO_LENGTH : Z;
  PIECES_X : Z; PIECES_Y : Z; PIECES_LENGTH : Z;
  NUMBER_WIDTH : Z; NUMBER_HEIGHT : Z;
  SLEEP_TIME : Z
}.

(** The preprocessor switches of the build. *)
Class BuildSwitches := {
  STC_SHOW_GHOST_PIECE : bool;
  STC_AUTO_ROTATION : bool
}.

(** [SDL_BlitSurface] of SDL 1.2 clips the blit and stores the rectangle it
    has drawn in [*dstrect], so the caller finds the destination rectangle
    changed where the blit was clipped.  What a call leaves there depends on
    the surfaces and their clipping, which the adapter neither sets nor
    reads: it is a parameter here, by the arguments of the call. *)
Class Blitter := {
  SDL_BlitSurface_leaves :
    pointer -> option SDL.Rect -> pointer -> SDL.Pos -> SDL.Pos
}.

(** The members of [PlatformSdl]. *)
Record PlatformSdl := {
  mScreen : pointer;
  mBmpTiles : pointer;
  mBmpBack : pointer;
  mBmpNumbers : pointer;
  mMusic : pointer;
  mSoundLine : pointer;
  mSoundDrop : pointer;
  mGame : pointer
}.

(** ** Calls *)

(** The calls the adapter issues on SDL, SDL_image, SDL_mixer, the C library
    and the engine. *)
Inductive Call :=
| srand (seed : Z)
| SDL_Init (flags : Z)
| SDL_SetVideoMode (width height bpp flags : Z)
| SDL_WM_SetCaption (title icon : string)
| IMG_Load (file : string)
| Mix_OpenAudio (frequency format channels chunksize : Z)
| Mix_LoadMUS (file : string)
| Mix_LoadWAV (file : string)
| Mix_PlayMusic (music : pointer) (loops : Z)
| SDL_BlitSurface (src : pointer) (srcrect : option SDL.Rect)
                  (dst : pointer) (dstrect : option SDL.Pos)
| SDL_Flip (screen : pointer)
| SDL_Delay (ms : Z)
| onEventStart (event : EventType)
| onEventEnd (event : EventType)
| onChangeProcessed.

(** A statement that only issues calls. *)
Definition Cmd := list Call.

Definition skip : Cmd := [].

(** [for (i = 0; i < n; ++i) body] *)
Fixpoint for_from (trips : nat) (i : Z) (body : Z -> Cmd) : Cmd :=
  match trips with
  | O => skip
  | S trips' => body i ++ for_from trips' (i + 1) body
  end.

Definition for_upto (n : Z) (body : Z -> Cmd) : Cmd :=
  for_from (Z.to_nat n) 0 body.

(** ** Member functions with an early [return] *)

(** [init] assigns members, issues calls and may return at several places: a
    computation takes the members and gives the members, the calls issued
    and either a value to go on with or the status returned. *)
Module Member.

Definition M (A : Type) : Type :=
  PlatformSdl -> (A + ErrorCode) * PlatformSdl * Cmd.

Definition ret {A} (a : A) : M A := fun self => (inl a, self, []).

Definition bind {A B} (m : M A) (k : A -> M B) : M B :=
  fun self =>
    match m self with
    | (inl a, self', calls) =>
        let '(r, self'', calls') := k a self' in (r, self'', calls ++ calls')
    | (inr status, self', calls) => (inr status, self', calls)
    end.

Definition return_ {A} (status : ErrorCode) : M A :=
  fun self => (inr status, self, []).

Definition call (c : Call) : M unit := fun self => (inl tt, self, [c]).

Definition assign (f : PlatformSdl -> PlatformSdl) : M unit :=
  fun self => (inl tt, f self, []).

(** The status a function returns, at its last statement or before. *)
Definition run (m : M ErrorCode) (self : PlatformSdl)
  : ErrorCode * PlatformSdl * Cmd :=
  match m self with
  | (inl status, self', calls) => (status, self', calls)
  | (inr status, self', calls) => (status, self', calls)
  end.

End Member.

Notation "x <- m ;; k" := (Member.bind m (fun x => k))
  (at level 61, m at next level, right associativity).
Notation "m ;; k" := (Member.bind m (fun _ => k))
  (at level 61, right associativity).

Definition set_mScreen (p : pointer) (self : PlatformSdl) : PlatformSdl :=
  {| mScreen := p; mBmpTiles := mBmpTiles self; mBmpBack := mBmpBack self;
     mBmpNumbers := mBmpNumbers self; mMusic := mMusic self;
     mSoundLine := mSoundLine self; mSoundDrop := mSoundDrop self;
     mGame := mGame self |}.

Definition set_mBmpTiles (p : pointer) (self : PlatformSdl) : PlatformSdl :=
  {| mScreen := mScreen self; mBmpTiles := p; mBmpBack := mBmpBack self;
     mBmpNumbers := mBmpNumbers self; mMusic := mMusic self;
     mSoundLine := mSoundLine self; mSoundDrop := mSoundDrop self;
     mGame := mGame self |}.

Definition set_mBmpBack (p : pointer) (self : PlatformSdl) : PlatformSdl :=
  {| mScreen := mScreen self; mBmpTiles := mBmpTiles self; mBmpBack := p;
     mBmpNumbers := mBmpNumbers self; mMusic := mMusic self;
     mSoundLine := mSoundLine self; mSoundDrop := mSoundDrop self;
     mGame := mGame self |}.

Definition set_mBmpNumbers (p : pointer) (self : PlatformSdl) : PlatformSdl :=
  {| mScreen := mScreen self; mBmpTiles := mBmpTiles self;
     mBmpBack := mBmpBack self; mBmpNumbers := p; mMusic := mMusic self;
     mSoundLine := mSoundLine self; mSoundDrop := mSoundDrop self;
     mGame := mGame self |}.

Definition set_mMusic (p : pointer) (self : PlatformSdl) : PlatformSdl :=
  {| mScreen := mScreen self; mBmpTiles := mBmpTiles self;
     mBmpBack := mBmpBack self; mBmpNumbers := mBmpNumbers self; mMusic := p;
     mSoundLine := mSoundLine self; mSoundDrop := mSoundDrop self;
     mGame := mGame self |}.

Definition set_mSoundLine (p : pointer) (self : PlatformSdl) : PlatformSdl :=
  {| mScreen := mScreen self; mBmpTiles := mBmpTiles self;
     mBmpBack := mBmpBack self; mBmpNumbers := mBmpNumbers self;
     mMusic := mMusic self; mSoundLine := p; mSoundDrop := mSoundDrop self;
     mGame := mGame self |}.

Definition set_mSoundDrop (p : pointer) (self : PlatformSdl) : PlatformSdl :=
  {| mScreen := mScreen self; mBmpTiles := mBmpTiles self;
     mBmpBack := mBmpBack self; mBmpNumbers := mBmpNumbers self;
     mMusic := mMusic self; mSoundLine := mSoundLine self; mSoundDrop := p;
     mGame := mGame self |}.

Definition set_mGame (p : pointer) (self : PlatformSdl) : PlatformSdl :=
  {| mScreen := mScreen self; mBmpTiles := mBmpTiles self;
     mBmpBack := mBmpBack self; mBmpNumbers := mBmpNumbers self;
     mMusic := mMusic self; mSoundLine := mSoundLine self;
     mSoundDrop := mSoundDrop self; mGame := p |}.

(** What the machine answers to the requests of [init]. *)
Record Environment := {
  time : Z;
  SDL_Init_result : Z;
  SDL_SetVideoMode_result : pointer;
  IMG_Load_result : string -> pointer;
  Mix_OpenAudio_result : Z;
  Mix_LoadMUS_result : string -> pointer;
  Mix_LoadWAV_result : string -> pointer
}.

Definition is_NULL (p : pointer) : bool :=
  match p with None => true | Some _ => false end.

Section Adapter.

Context {GC : GameConstants} {PC : PlatformConstants} {BS : BuildSwitches}
        {SV : Blitter}.

(** *** [PlatformSdl::init] *)

Definition init_body (env : Environment) (game : pointer)
  : Member.M ErrorCode :=
  (* Initialize the random number generator *)
  Member.call (srand (C.Uint32 (time env))) ;;
  (* Start video and audio system *)
  Member.call (SDL_Init (Z.lor SDL.SDL_INIT_VIDEO SDL.SDL_INIT_AUDIO)) ;;
  if SDL_Init_result env <? 0 then Member.return_ ERROR_PLATFORM else
  (* Create game video surface *)
  Member.call (SDL_SetVideoMode SCREEN_WIDTH SCREEN_HEIGHT
                                SCREEN_BIT_DEPTH SCREEN_VIDEO_MODE) ;;
  Member.assign (set_mScreen (SDL_SetVideoMode_result env)) ;;
  if is_NULL (SDL_SetVideoMode_result env)
  then Member.return_ ERROR_NO_VIDEO else
  (* Set window caption *)
  Member.call (SDL_WM_SetCaption (STC_GAME_NAME ++ " (C++)") STC_GAME_NAME) ;;
  (* Load images for blocks and background *)
  Member.call (IMG_Load STC_BMP_TILE_BLOCKS) ;;
  Member.assign (set_mBmpTiles (IMG_Load_result env STC_BMP_TILE_BLOCKS)) ;;
  Member.call (IMG_Load STC_BMP_BACKGROUND) ;;
  Member.assign (set_mBmpBack (IMG_Load_result env STC_BMP_BACKGROUND)) ;;
  Member.call (IMG_Load STC_BMP_NUMBERS) ;;
  Member.assign (set_mBmpNumbers (IMG_Load_result env STC_BMP_NUMBERS)) ;;
  if is_NULL (IMG_Load_result env STC_BMP_TILE_BLOCKS)
     || is_NULL (IMG_Load_result env STC_BMP_BACKGROUND)
     || is_NULL (IMG_Load_result env STC_BMP_NUMBERS)
  then Member.return_ ERROR_NO_IMAGES else
  (* Setup audio *)
  let audioRate := 44100 in
  let audioFormat := SDL.AUDIO_S16 in
  let audioChannels := 2 in
  let audioBuffers := 4096 in
  (* Open SDL_mixer *)
  Member.call (Mix_OpenAudio audioRate audioFormat audioChannels
                             audioBuffers) ;;
  if negb (Mix_OpenAudio_result env =? 0)
  then Member.return_ ERROR_PLATFORM else
  (* Load the music file and sound effects *)
  Member.call (Mix_LoadMUS STC_SND_MUSIC) ;;
  Member.assign (set_mMusic (Mix_LoadMUS_result env STC_SND_MUSIC)) ;;
  Member.call (Mix_LoadWAV STC_SND_LINE) ;;
  Member.assign (set_mSoundLine (Mix_LoadWAV_result env STC_SND_LINE)) ;;
  Member.call (Mix_LoadWAV STC_SND_DROP) ;;
  Member.assign (set_mSoundDrop (Mix_LoadWAV_result env STC_SND_DROP)) ;;
  (* Play the music in a loop *)
  Member.call (Mix_PlayMusic (Mix_LoadMUS_result env STC_SND_MUSIC) (-1)) ;;
  Member.assign (set_mGame game) ;;
  Member.ret ERROR_NONE.

Definition init (env : Environment) (self : PlatformSdl) (game : pointer)
  : ErrorCode * PlatformSdl * Cmd :=
  Member.run (init_body env game) self.

Definition init_status (env : Environment) (self : PlatformSdl)
    (game : pointer) : ErrorCode :=
  fst (fst (init env self game)).

Definition init_members (env : Environment) (self : PlatformSdl)
    (game : pointer) : PlatformSdl :=
  snd (fst (init env self game)).

Definition init_calls (env : Environment) (self : PlatformSdl)
    (game : pointer) : Cmd :=
  snd (init env self game).

(** *** [PlatformSdl::processEvents] *)

(** The inner [switch] of [case SDL_KEYDOWN]. *)
Definition on_SDL_KEYDOWN (sym : SDL.Key) : Cmd :=
  match sym with
  | SDL.SDLK_ESCAPE => [onEventStart EVENT_QUIT]
  | SDL.SDLK_s | SDL.SDLK_DOWN => [onEventStart EVENT_MOVE_DOWN]
  | SDL.SDLK_w | SDL.SDLK_UP => [onEventStart EVENT_ROTATE_CW]
  | SDL.SDLK_a | SDL.SDLK_LEFT => [onEventStart EVENT_MOVE_LEFT]
  | SDL.SDLK_d | SDL.SDLK_RIGHT => [onEventStart EVENT_MOVE_RIGHT]
  | SDL.SDLK_SPACE => [onEventStart EVENT_DROP]
  | SDL.SDLK_F5 => [onEventStart EVENT_RESTART]
  | SDL.SDLK_F1 => [onEventStart EVENT_PAUSE]
  | SDL.SDLK_F2 => [onEventStart EVENT_SHOW_NEXT]
  | SDL.SDLK_F3 =>
      if STC_SHOW_GHOST_PIECE then [onEventStart EVENT_SHOW_SHADOW] else skip
  | SDL.SDLK_other _ => skip
  end.

(** The inner [switch] of [case SDL_KEYUP]; control then falls through to
    the outer [default], which only breaks. *)
Definition on_SDL_KEYUP (sym : SDL.Key) : Cmd :=
  match sym with
  | SDL.SDLK_s | SDL.SDLK_DOWN => [onEventEnd EVENT_MOVE_DOWN]
  | SDL.SDLK_a | SDL.SDLK_LEFT => [onEventEnd EVENT_MOVE_LEFT]
  | SDL.SDLK_d | SDL.SDLK_RIGHT => [onEventEnd EVENT_MOVE_RIGHT]
  | SDL.SDLK_w | SDL.SDLK_UP =>
      if STC_AUTO_ROTATION then [onEventEnd EVENT_ROTATE_CW] else skip
  | _ => skip
  end.

(** The outer [switch (event.type)]. *)
Definition on_event (event : SDL.Event) : Cmd :=
  match event with
  | SDL.SDL_QUIT => [onEventStart EVENT_QUIT]
  | SDL.SDL_KEYDOWN sym => on_SDL_KEYDOWN sym
  | SDL.SDL_KEYUP sym => on_SDL_KEYUP sym
  | SDL.SDL_other _ => skip
  end.

(** [while (SDL_PollEvent(&event))]: the oldest pending event is taken from
    the queue until none is left. *)
Fixpoint processEvents (queue : list SDL.Event) : Cmd :=
  match queue with
  | [] => skip
  | event :: queue' => on_event event ++ processEvents queue'
  end.

(** *** [PlatformSdl::drawTile] *)

Definition drawTile (self : PlatformSdl) (x y tile : Z) (shadow : bool)
  : Cmd :=
  let recDestine := {| SDL.dx := C.Sint16 x; SDL.dy := C.Sint16 y |} in
  let recSource :=
    {| SDL.x := C.Sint16 (TILE_SIZE * tile);
       SDL.y := C.Sint16 ((TILE_SIZE + 1) * (if shadow then 1 else 0));
       SDL.w := C.Uint16 (TILE_SIZE + 1);
       SDL.h := C.Uint16 (TILE_SIZE + 1) |} in
  [SDL_BlitSurface (mBmpTiles self) (Some recSource)
                   (mScreen self) (Some recDestine)].

(** *** [PlatformSdl::drawNumber] *)

(** The [do ... while (++pos < length)] loop, entered with the current
    [pos], [number] and [recDestine.y]: the body runs, then the count is
    tested.  [recDestine.x] is set on every trip; [recDestine.y] is set once
    before the loop and is afterwards what the last blit has left in it. *)
Equations? drawNumber_loop (self : PlatformSdl) (x : Z)
    (recSource_y recDestine_y : Z) (length : Z) (pos : Z) (number : Z)
  : Cmd by wf (Z.to_nat (length - pos)) lt :=
  drawNumber_loop self x recSource_y recDestine_y length pos number :=
    let recDestine :=
      {| SDL.dx := C.Sint16 (x + NUMBER_WIDTH * (length - pos));
         SDL.dy := recDestine_y |} in
    let recSource :=
      {| SDL.x := C.Sint16 (NUMBER_WIDTH * C.Sint16 (Z.rem number 10));
         SDL.y := recSource_y;
         SDL.w := C.Uint16 NUMBER_WIDTH;
         SDL.h := C.Uint16 NUMBER_HEIGHT |} in
    SDL_BlitSurface (mBmpNumbers self) (Some recSource)
                    (mScreen self) (Some recDestine)
    :: match Z_lt_dec (pos + 1) length with
       | left _ =>
           drawNumber_loop self x recSource_y
             (SDL.dy (SDL_BlitSurface_leaves (mBmpNumbers self)
                        (Some recSource) (mScreen self) recDestine))
             length (pos + 1) (Z.quot number 10)
       | right _ => skip
       end.
Proof. lia. Qed.

Definition drawNumber (self : PlatformSdl) (x y number length color : Z)
  : Cmd :=
  drawNumber_loop self x (C.Sint16 (NUMBER_HEIGHT * color)) (C.Sint16 y)
    length 0 number.

(** *** [PlatformSdl::renderGame] *)

(** Draw preview block *)
Definition renderGame_preview (self : PlatformSdl) (g : Game) : Cmd :=
  for_upto TETROMINO_SIZE (fun i =>
    for_upto TETROMINO_SIZE (fun j =>
      if negb (StcTetromino.cells (nextBlock g) i j =? EMPTY_CELL)
      then drawTile self (PREVIEW_X + (TILE_SIZE * i))
                         (PREVIEW_Y + (TILE_SIZE * j))
                         (StcTetromino.cells (nextBlock g) i j) false
      else skip)).

(** Draw shadow tetromino *)
Definition renderGame_shadow (self : PlatformSdl) (g : Game) : Cmd :=
  for_upto TETROMINO_SIZE (fun i =>
    for_upto TETROMINO_SIZE (fun j =>
      if negb (StcTetromino.cells (fallingBlock g) i j =? EMPTY_CELL)
      then drawTile self
             (BOARD_X + (TILE_SIZE * (StcTetromino.x (fallingBlock g) + i)))
             (BOARD_Y + (TILE_SIZE * (StcTetromino.y (fallingBlock g)
                                      + shadowGap g + j)))
             (StcTetromino.cells (fallingBlock g) i j) true
      else skip)).

(** Draw the cells in the board *)
Definition renderGame_board (self : PlatformSdl) (g : Game) : Cmd :=
  for_upto BOARD_TILEMAP_WIDTH (fun i =>
    for_upto BOARD_TILEMAP_HEIGHT (fun j =>
      if negb (getCell g i j =? EMPTY_CELL)
      then drawTile self (BOARD_X + (TILE_SIZE * i))
                         (BOARD_Y + (TILE_SIZE * j))
                         (getCell g i j) false
      else skip)).

(** Draw falling tetromino *)
Definition renderGame_falling (self : PlatformSdl) (g : Game) : Cmd :=
  for_upto TETROMINO_SIZE (fun i =>
    for_upto TETROMINO_SIZE (fun j =>
      if negb (StcTetromino.cells (fallingBlock g) i j =? EMPTY_CELL)
      then drawTile self
             (BOARD_X + (TILE_SIZE * (StcTetromino.x (fallingBlock g) + i)))
             (BOARD_Y + (TILE_SIZE * (StcTetromino.y (fallingBlock g) + j)))
             (StcTetromino.cells (fallingBlock g) i j) false
      else skip)).

(** Draw game statistic data *)
Definition renderGame_stats (self : PlatformSdl) (g : Game) : Cmd :=
  let st := stats g in
  drawNumber self LEVEL_X LEVEL_Y (StcStatistics.level st)
             LEVEL_LENGTH COLOR_WHITE
  ++ drawNumber self LINES_X LINES_Y (StcStatistics.lines st)
                LINES_LENGTH COLOR_WHITE
  ++ drawNumber self SCORE_X SCORE_Y (StcStatistics.score st)
                SCORE_LENGTH COLOR_WHITE
  ++ drawNumber self TETROMINO_X TETROMINO_L_Y
                (StcStatistics.pieces st TETROMINO_L)
                TETROMINO_LENGTH COLOR_ORANGE
  ++ drawNumber self TETROMINO_X TETROMINO_I_Y
                (StcStatistics.pieces st TETROMINO_I)
                TETROMINO_LENGTH COLOR_CYAN
  ++ drawNumber self TETROMINO_X TETROMINO_T_Y
                (StcStatistics.pieces st TETROMINO_T)
                TETROMINO_LENGTH COLOR_PURPLE
  ++ drawNumber self TETROMINO_X TETROMINO_S_Y
                (StcStatistics.pieces st TETROMINO_S)
                TETROMINO_LENGTH COLOR_GREEN
  ++ drawNumber self TETROMINO_X TETROMINO_Z_Y
                (StcStatistics.pieces st TETROMINO_Z)
                TETROMINO_LENGTH COLOR_RED
  ++ drawNumber self TETROMINO_X TETROMINO_O_Y
                (StcStatistics.pieces st TETROMINO_O)
                TETROMINO_LENGTH COLOR_YELLOW
  ++ drawNumber self TETROMINO_X TETROMINO_J_Y
                (StcStatistics.pieces st TETROMINO_J)
                TETROMINO_LENGTH COLOR_BLUE
  ++ drawNumber self PIECES_X PIECES_Y (StcStatistics.totalPieces st)
                PIECES_LENGTH COLOR_WHITE.

Definition renderGame (self : PlatformSdl) (g : Game) : Cmd :=
  (* Check if the game state has changed, if so redraw *)
  (if hasChanged g then
     (* Draw background *)
     [SDL_BlitSurface (mBmpBack self) None (mScreen self) None]
     ++ (if showPreview g then renderGame_preview self g else skip)
     ++ (if STC_SHOW_GHOST_PIECE
         then (if showShadow g && (shadowGap g >? 0)
               then renderGame_shadow self g else skip)
         else skip)
     ++ renderGame_board self g
     ++ renderGame_falling self g
     ++ (if negb (isPaused g) then renderGame_stats self g else skip)
     (* Inform the game that we are done with the changed state *)
     ++ [onChangeProcessed]
     (* Swap video buffers *)
     ++ [SDL_Flip (mScreen self)]
   else skip)
  (* Resting game *)
  ++ [SDL_Delay SLEEP_TIME].

End Adapter.

(** ** Observations on the calls issued *)

Definition is_blit (c : Call) : bool :=
  match c with SDL_BlitSurface _ _ _ _ => true | _ => false end.

Definition is_flip (c : Call) : bool :=
  match c with SDL_Flip _ => true | _ => false end.

Definition is_onChangeProcessed (c : Call) : bool :=
  match c with onChangeProcessed => true | _ => false end.

Definition count (p : Call -> bool) (calls : Cmd) : nat :=
  List.length (filter p calls).

(** The durations slept, in order. *)
Definition delays (calls : Cmd) : list Z :=
  flat_map (fun c => match c with SDL_Delay ms => [ms] | _ => [] end) calls.

(** The destination rectangle of each blit, in order. *)
Definition destinations (calls : Cmd) : list (option SDL.Pos) :=
  flat_map (fun c => match c with
                     | SDL_BlitSurface _ _ _ dstrect => [dstrect]
                     | _ => []
                     end) calls.

(** The Surface, as far as calls determine it: the blits it has received,
    newest first, and how often it was presented. *)
Record Surface := {
  received : list (pointer * option SDL.Rect * option SDL.Pos);
  presented : nat
}.

Definition pointer_eqb (p q : pointer) : bool :=
  match p, q with
  | None, None => true
  | Some a, Some b => Pos.eqb a b
  | _, _ => false
  end.

(** The effect of one call on the Surface behind [screen]. *)
Definition perform (screen : pointer) (s : Surface) (c : Call) : Surface :=
  match c with
  | SDL_BlitSurface src srcrect dst dstrect =>
      if pointer_eqb dst screen
      then {| received := (src, srcrect, dstrect) :: received s;
              presented := presented s |}
      else s
  | SDL_Flip p =>
      if pointer_eqb p screen
      then {| received := received s; presented := S (presented s) |}
      else s
  | _ => s
  end.

Definition perform_all (screen : pointer) (s : Surface) (calls : Cmd)
  : Surface :=
  fold_left (perform screen) calls s.

(** ** The behaviour, as the specification words it *)

(** [0, 1, ..., n - 1] *)
Definition range (n : Z) : list Z := map Z.of_nat (seq 0 (Z.to_nat n)).

(** The cells of a grid in the order the passes visit them: column index
    outermost. *)
Definition grid (cols rows : Z) : list (Z * Z) :=
  flat_map (fun i => map (pair i) (range rows)) (range cols).

(** The decimal digit of weight [10 ^ k], with the division and remainder
    of C++ (both truncate towards zero). *)
Definition digit_at (number k : Z) : Z := Z.rem (Z.quot number (10 ^ k)) 10.

Section Described.

Context {GC : GameConstants} {PC : PlatformConstants} {BS : BuildSwitches}
        {SV : Blitter}.

(** The rectangle of the tile atlas that holds a tile: a function of the
    tile identifier and the ghost mode. *)
Definition tile_source (tile : Z) (ghost : bool) : SDL.Rect :=
  {| SDL.x := C.Sint16 (TILE_SIZE * tile);
     SDL.y := C.Sint16 ((TILE_SIZE + 1) * (if ghost then 1 else 0));
     SDL.w := C.Uint16 (TILE_SIZE + 1);
     SDL.h := C.Uint16 (TILE_SIZE + 1) |}.

Definition tile_blit (self : PlatformSdl) (px py tile : Z) (ghost : bool)
  : Call :=
  SDL_BlitSurface (mBmpTiles self) (Some (tile_source tile ghost))
                  (mScreen self)
                  (Some {| SDL.dx := C.Sint16 px; SDL.dy := C.Sint16 py |}).

(** What one cell of a grid contributes to a frame. *)
Definition cell_blits (self : PlatformSdl) (tile px py : Z) (ghost : bool)
  : Cmd :=
  if tile =? EMPTY_CELL then [] else [tile_blit self px py tile ghost].

(** A pass over a grid: every cell in turn. *)
Definition grid_blits (self : PlatformSdl) (cols rows : Z)
    (cell : Z -> Z -> Z) (px py : Z -> Z) (ghost : bool) : Cmd :=
  flat_map (fun ij => cell_blits self (cell (fst ij) (snd ij))
                                 (px (fst ij)) (py (snd ij)) ghost)
           (grid cols rows).

(** The blit of digit [digit] as the [k]-th glyph of a field of [length]
    digits at [(x, y)]. *)
Definition glyph_blit (self : PlatformSdl) (x y color length k digit : Z)
  : Call :=
  SDL_BlitSurface (mBmpNumbers self)
    (Some {| SDL.x := C.Sint16 (NUMBER_WIDTH * digit);
             SDL.y := C.Sint16 (NUMBER_HEIGHT * color);
             SDL.w := C.Uint16 NUMBER_WIDTH;
             SDL.h := C.Uint16 NUMBER_HEIGHT |})
    (mScreen self)
    (Some {| SDL.dx := C.Sint16 (x + NUMBER_WIDTH * (length - k));
             SDL.dy := C.Sint16 y |}).

(** The fields of the HUD, in the order they are drawn:
    position, value, length and color. *)
Definition hud_fields (g : Game) : list (Z * Z * Z * Z * Z) :=
  let st := stats g in
  [ (LEVEL_X, LEVEL_Y, StcStatistics.level st, LEVEL_LENGTH, COLOR_WHITE);
    (LINES_X, LINES_Y, StcStatistics.lines st, LINES_LENGTH, COLOR_WHITE);
    (SCORE_X, SCORE_Y, StcStatistics.score st, SCORE_LENGTH, COLOR_WHITE);
    (TETROMINO_X, TETROMINO_L_Y, StcStatistics.pieces st TETROMINO_L,
     TETROMINO_LENGTH, COLOR_ORANGE);
    (TETROMINO_X, TETROMINO_I_Y, StcStatistics.pieces st TETROMINO_I,
     TETROMINO_LENGTH, COLOR_CYAN);
    (TETROMINO_X, TETROMINO_T_Y, StcStatistics.pieces st TETROMINO_T,
     TETROMINO_LENGTH, COLOR_PURPLE);
    (TETROMINO_X, TETROMINO_S_Y, StcStatistics.pieces st TETROMINO_S,
     TETROMINO_LENGTH, COLOR_GREEN);
    (TETROMINO_X, TETROMINO_Z_Y, StcStatistics.pieces st TETROMINO_Z,
     TETROMINO_LENGTH, COLOR_RED);
    (TETROMINO_X, TETROMINO_O_Y, StcStatistics.pieces st TETROMINO_O,
     TETROMINO_LENGTH, COLOR_YELLOW);
    (TETROMINO_X, TETROMINO_J_Y, StcStatistics.pieces st TETROMINO_J,
     TETROMINO_LENGTH, COLOR_BLUE);
    (PIECES_X, PIECES_Y, StcStatistics.totalPieces st, PIECES_LENGTH,
     COLOR_WHITE) ].

Definition hud_blits (self : PlatformSdl) (g : Game) : Cmd :=
  flat_map (fun f => match f with
                     | (x, y, number, length, color) =>
                         drawNumber self x y number length color
                     end) (hud_fields g).

(** The fixed key table: the semantic event a key starts. *)
Definition key_table : list (SDL.Key * EventType) :=
  [ (SDL.SDLK_ESCAPE, EVENT_QUIT);
    (SDL.SDLK_s, EVENT_MOVE_DOWN); (SDL.SDLK_DOWN, EVENT_MOVE_DOWN);
    (SDL.SDLK_w, EVENT_ROTATE_CW); (SDL.SDLK_UP, EVENT_ROTATE_CW);
    (SDL.SDLK_a, EVENT_MOVE_LEFT); (SDL.SDLK_LEFT, EVENT_MOVE_LEFT);
    (SDL.SDLK_d, EVENT_MOVE_RIGHT); (SDL.SDLK_RIGHT, EVENT_MOVE_RIGHT);
    (SDL.SDLK_SPACE, EVENT_DROP);
    (SDL.SDLK_F5, EVENT_RESTART);
    (SDL.SDLK_F1, EVENT_PAUSE);
    (SDL.SDLK_F2, EVENT_SHOW_NEXT) ]
  ++ (if STC_SHOW_GHOST_PIECE
      then [(SDL.SDLK_F3, EVENT_SHOW_SHADOW)] else []).

(** The keys of the held actions left, right and down. *)
Definition held_keys : list (SDL.Key * EventType) :=
  [ (SDL.SDLK_a, EVENT_MOVE_LEFT); (SDL.SDLK_LEFT, EVENT_MOVE_LEFT);
    (SDL.SDLK_d, EVENT_MOVE_RIGHT); (SDL.SDLK_RIGHT, EVENT_MOVE_RIGHT);
    (SDL.SDLK_s, EVENT_MOVE_DOWN); (SDL.SDLK_DOWN, EVENT_MOVE_DOWN) ].

(** The steps of [init], all of them, in the order of the contract. *)
Definition init_sequence (env : Environment) : Cmd :=
  [ srand (C.Uint32 (time env));
    SDL_Init (Z.lor SDL.SDL_INIT_VIDEO SDL.SDL_INIT_AUDIO);
    SDL_SetVideoMode SCREEN_WIDTH SCREEN_HEIGHT SCREEN_BIT_DEPTH
                     SCREEN_VIDEO_MODE;
    SDL_WM_SetCaption (STC_GAME_NAME ++ " (C++)") STC_GAME_NAME;
    IMG_Load STC_BMP_TILE_BLOCKS;
    IMG_Load STC_BMP_BACKGROUND;
    IMG_Load STC_BMP_NUMBERS;
    Mix_OpenAudio 44100 SDL.AUDIO_S16 2 4096;
    Mix_LoadMUS STC_SND_MUSIC;
    Mix_LoadWAV STC_SND_LINE;
    Mix_LoadWAV STC_SND_DROP;
    Mix_PlayMusic (Mix_LoadMUS_result env STC_SND_MUSIC) (-1) ].

(** The steps whose failure [init] tests. *)
Inductive InitStep :=
| PlatformInit | VideoSurface | ImageLoad | MixerOpen.

(** The first tested step that fails, if any. *)
Definition first_failure (env : Environment) : option InitStep :=
  if SDL_Init_result env <? 0 then Some PlatformInit
  else if is_NULL (SDL_SetVideoMode_result env) then Some VideoSurface
  else if is_NULL (IMG_Load_result env STC_BMP_TILE_BLOCKS)
          || is_NULL (IMG_Load_result env STC_BMP_BACKGROUND)
          || is_NULL (IMG_Load_result env STC_BMP_NUMBERS)
       then Some ImageLoad
  else if negb (Mix_OpenAudio_result env =? 0) then Some MixerOpen
  else None.

(** The number of steps of [init_sequence] done when a step has failed. *)
Definition steps_done (failed : option InitStep) : nat :=
  match failed with
  | Some PlatformInit => 2
  | Some VideoSurface => 3
  | Some ImageLoad => 7
  | Some MixerOpen => 8
  | None => 12
  end.

End Described.

(** The status a failed step is reported with. *)
Definition classification (failed : option InitStep) : ErrorCode :=
  match failed with
  | Some PlatformInit => ERROR_PLATFORM
  | Some VideoSurface => ERROR_NO_VIDEO
  | Some ImageLoad => ERROR_NO_IMAGES
  | Some MixerOpen => ERROR_PLATFORM
  | None => ERROR_NONE
  end.

(** ** A configuration to run the adapter on *)

Module Sample.

Definition game_constants : GameConstants :=
  {| TETROMINO_SIZE := 4;
     BOARD_TILEMAP_WIDTH := 10;
     BOARD_TILEMAP_HEIGHT := 22;
     EMPTY_CELL := 0;
     COLOR_WHITE := 0; COLOR_ORANGE := 4; COLOR_CYAN := 1; COLOR_PURPLE := 7;
     COLOR_GREEN := 5; COLOR_RED := 2; COLOR_YELLOW := 6; COLOR_BLUE := 3;
     TETROMINO_L := 6; TETROMINO_I := 0; TETROMINO_T := 2; TETROMINO_S := 3;
     TETROMINO_Z := 4; TETROMINO_O := 1; TETROMINO_J := 5 |}.

Definition platform_constants : PlatformConstants :=
  {| SCREEN_WIDTH := 480; SCREEN_HEIGHT := 272;
     SCREEN_BIT_DEPTH := 8; SCREEN_VIDEO_MODE := 1073741825;
     STC_GAME_NAME := "STC";
     STC_BMP_TILE_BLOCKS := "sdl_blocks.png";
     STC_BMP_BACKGROUND := "sdl_back.png";
     STC_BMP_NUMBERS := "sdl_numbers.png";
     STC_SND_MUSIC := "stc_theme_loop.ogg";
     STC_SND_LINE := "fx_line.wav";
     STC_SND_DROP := "fx_drop.wav";
     TILE_SIZE := 12;
     BOARD_X := 180; BOARD_Y := 4;
     PREVIEW_X := 112; PREVIEW_Y := 210;
     SCORE_X := 72; SCORE_Y := 52; SCORE_LENGTH := 10;
     LINES_X := 108; LINES_Y := 34; LINES_LENGTH := 5;
     LEVEL_X := 108; LEVEL_Y := 16; LEVEL_LENGTH := 5;
     TETROMINO_X := 425;
     TETROMINO_L_Y := 53; TETROMINO_I_Y := 77; TETROMINO_T_Y := 101;
     TETROMINO_S_Y := 125; TETROMINO_Z_Y := 149; TETROMINO_O_Y := 173;
     TETROMINO_J_Y := 197;
     TETROMINO_LENGTH := 5;
     PIECES_X := 418; PIECES_Y := 221; PIECES_LENGTH := 6;
     NUMBER_WIDTH := 7; NUMBER_HEIGHT := 9;
     SLEEP_TIME := 40 |}.

Definition switches : BuildSwitches :=
  {| STC_SHOW_GHOST_PIECE := true; STC_AUTO_ROTATION := false |}.

(** The members after a successful [init]. *)
Definition self : PlatformSdl :=
  {| mScreen := Some 1%positive; mBmpTiles := Some 2%positive;
     mBmpBack := Some 3%positive; mBmpNumbers := Some 4%positive;
     mMusic := Some 5%positive; mSoundLine := Some 6%positive;
     mSoundDrop := Some 7%positive; mGame := Some 8%positive |}.

(** The members before [init]. *)
Definition blank : PlatformSdl :=
  {| mScreen := NULL; mBmpTiles := NULL; mBmpBack := NULL;
     mBmpNumbers := NULL; mMusic := NULL; mSoundLine := NULL;
     mSoundDrop := NULL; mGame := NULL |}.

(** A machine on which every request of [init] succeeds. *)
Definition machine : Environment :=
  {| time := 1300000000;
     SDL_Init_result := 0;
     SDL_SetVideoMode_result := Some 1%positive;
     IMG_Load_result := fun file =>
       if String.eqb file "sdl_blocks.png" then Some 2%positive
       else if String.eqb file "sdl_back.png" then Some 3%positive
       else if String.eqb file "sdl_numbers.png" then Some 4%positive
       else NULL;
     Mix_OpenAudio_result := 0;
     Mix_LoadMUS_result := fun file =>
       if String.eqb file "stc_theme_loop.ogg" then Some 5%positive else NULL;
     Mix_LoadWAV_result := fun file =>
       if String.eqb file "fx_line.wav" then Some 6%positive
       else if String.eqb file "fx_drop.wav" then Some 7%positive
       else NULL |}.

(** The same machine without the music file. *)
Definition machine_without_music : Environment :=
  {| time := time machine;
     SDL_Init_result := SDL_Init_result machine;
     SDL_SetVideoMode_result := SDL_SetVideoMode_result machine;
     IMG_Load_result := IMG_Load_result machine;
     Mix_OpenAudio_result := Mix_OpenAudio_result machine;
     Mix_LoadMUS_result := fun _ => NULL;
     Mix_LoadWAV_result := Mix_LoadWAV_result machine |}.

(** The same machine when [SDL_Init] fails. *)
Definition machine_without_sdl : Environment :=
  {| time := time machine;
     SDL_Init_result := -1;
     SDL_SetVideoMode_result := SDL_SetVideoMode_result machine;
     IMG_Load_result := IMG_Load_result machine;
     Mix_OpenAudio_result := Mix_OpenAudio_result machine;
     Mix_LoadMUS_result := Mix_LoadMUS_result machine;
     Mix_LoadWAV_result := Mix_LoadWAV_result machine |}.

(** The same machine when only [Mix_OpenAudio] fails. *)
Definition machine_without_mixer : Environment :=
  {| time := time machine;
     SDL_Init_result := SDL_Init_result machine;
     SDL_SetVideoMode_result := SDL_SetVideoMode_result machine;
     IMG_Load_result := IMG_Load_result machine;
     Mix_OpenAudio_result := -1;
     Mix_LoadMUS_result := Mix_LoadMUS_result machine;
     Mix_LoadWAV_result := Mix_LoadWAV_result machine |}.

(** A T tetromino in the top rows of its grid. *)
Definition piece_T : Z -> Z -> Z :=
  fun i j =>
    if (j =? 0) && ((0 <=? i) && (i <=? 2)) then 7
    else if (j =? 1) && (i =? 1) then 7
    else 0.

Definition statistics : StcStatistics.t :=
  {| StcStatistics.score := 1250; StcStatistics.lines := 7;
     StcStatistics.totalPieces := 31; StcStatistics.level := 1;
     StcStatistics.pieces := fun shape => shape + 3 |}.

(** An engine with a change to render: one locked cell on the floor. *)
Definition changed : Game :=
  {| hasChanged := true;
     showPreview := true;
     showShadow := true;
     shadowGap := 15;
     nextBlock := {| StcTetromino.cells := piece_T;
                     StcTetromino.x := 3; StcTetromino.y := 0 |};
     fallingBlock := {| StcTetromino.cells := piece_T;
                        StcTetromino.x := 4; StcTetromino.y := 5 |};
     getCell := fun i j => if (i =? 0) && (j =? 21) then 2 else 0;
     stats := statistics;
     isPaused := false |}.

(** The same engine after the change was acknowledged. *)
Definition unchanged : Game :=
  {| hasChanged := false;
     showPreview := showPreview changed;
     showShadow := showShadow changed;
     shadowGap := shadowGap changed;
     nextBlock := nextBlock changed;
     fallingBlock := fallingBlock changed;
     getCell := getCell changed;
     stats := stats changed;
     isPaused := isPaused changed |}.

End Sample.

(** ** Machines on which a step of [init] fails *)

Module Faults.

(** The sample machine without the image of the digits. *)
Definition machine_without_numbers : Environment :=
  {| time := time Sample.machine;
     SDL_Init_result := SDL_Init_result Sample.machine;
     SDL_SetVideoMode_result := SDL_SetVideoMode_result Sample.machine;
     IMG_Load_result := fun file =>
       if String.eqb file "sdl_numbers.png" then NULL
       else IMG_Load_result Sample.machine file;
     Mix_OpenAudio_result := Mix_OpenAudio_result Sample.machine;
     Mix_LoadMUS_result := Mix_LoadMUS_result Sample.machine;
     Mix_LoadWAV_result := Mix_LoadWAV_result Sample.machine |}.

(** The sample machine when the video mode cannot be set. *)
Definition machine_without_video : Environment :=
  {| time := time Sample.machine;
     SDL_Init_result := SDL_Init_result Sample.machine;
     SDL_SetVideoMode_result := NULL;
     IMG_Load_result := IMG_Load_result Sample.machine;
     Mix_OpenAudio_result := Mix_OpenAudio_result Sample.machine;
     Mix_LoadMUS_result := Mix_LoadMUS_result Sample.machine;
     Mix_LoadWAV_result := Mix_LoadWAV_result Sample.machine |}.

(** The sample machine without the sound of a completed line. *)
Definition machine_without_line_sound : Environment :=
  {| time := time Sample.machine;
     SDL_Init_result := SDL_Init_result Sample.machine;
     SDL_SetVideoMode_result := SDL_SetVideoMode_result Sample.machine;
     IMG_Load_result := IMG_Load_result Sample.machine;
     Mix_OpenAudio_result := Mix_OpenAudio_result Sample.machine;
     Mix_LoadMUS_result := Mix_LoadMUS_result Sample.machine;
     Mix_LoadWAV_result := fun file =>
       if String.eqb file "fx_line.wav" then NULL
       else Mix_LoadWAV_result Sample.machine file |}.

End Faults.

(** ** The audio triggers and the shutdown *)

(** The call of [onLineCompleted] and [onPieceDrop] on SDL_mixer. *)
Inductive MixerCall :=
| Mix_PlayChannel (channel : Z) (chunk : pointer) (loops : Z).

(** *** [PlatformSdl::onLineCompleted] *)
Definition onLineCompleted (self : PlatformSdl) : list MixerCall :=
  [Mix_PlayChannel (-1) (mSoundLine self) 0].

(** *** [PlatformSdl::onPieceDrop] *)
Definition onPieceDrop (self : PlatformSdl) : list MixerCall :=
  [Mix_PlayChannel (-1) (mSoundDrop self) 0].

(** The calls of [end] on SDL and SDL_mixer. *)
Inductive ReleaseCall :=
| SDL_FreeSurface (surface : pointer)
| Mix_CloseAudio
| SDL_Quit.

(** *** [PlatformSdl::end] *)
Definition end_ (self : PlatformSdl) : list ReleaseCall :=
  (* Free all the created surfaces *)
  [ SDL_FreeSurface (mBmpTiles self);
    SDL_FreeSurface (mBmpBack self);
    SDL_FreeSurface (mBmpNumbers self);
    SDL_FreeSurface (mScreen self);
    (* Close SDL_mixer *)
    Mix_CloseAudio;
    (* Shut down SDL *)
    SDL_Quit ].

(** The surfaces released, in order. *)
Definition freed (calls : list ReleaseCall) : list pointer :=
  flat_map (fun c => match c with
                     | SDL_FreeSurface surface => [surface]
                     | _ => []
                     end) calls.

(** ** Further observations *)

(** The surface each blit reads, in order. *)
Definition sources (calls : Cmd) : list pointer :=
  flat_map (fun c => match c with
                     | SDL_BlitSurface src _ _ _ => [src]
                     | _ => []
                     end) calls.

(** The surface each blit writes, in order. *)
Definition targets (calls : Cmd) : list pointer :=
  flat_map (fun c => match c with
                     | SDL_BlitSurface _ _ dst _ => [dst]
                     | _ => []
                     end) calls.

(** The source rectangle of each blit, in order. *)
Definition source_rects (calls : Cmd) : list (option SDL.Rect) :=
  flat_map (fun c => match c with
                     | SDL_BlitSurface _ srcrect _ _ => [srcrect]
                     | _ => []
                     end) calls.

Definition is_event (c : Call) : bool :=
  match c with onEventStart _ | onEventEnd _ => true | _ => false end.

Definition is_play_music (c : Call) : bool :=
  match c with Mix_PlayMusic _ _ => true | _ => false end.

Definition is_audio_load (c : Call) : bool :=
  match c with Mix_LoadMUS _ | Mix_LoadWAV _ => true | _ => false end.

Definition is_image_load (c : Call) : bool :=
  match c with IMG_Load _ => true | _ => false end.

Definition is_mixer_open (c : Call) : bool :=
  match c with Mix_OpenAudio _ _ _ _ => true | _ => false end.

(** The iterations, of a run of the loop, in which the engine reports a
    change. *)
Definition changed_count (iterations : list Game) : nat :=
  List.length (filter hasChanged iterations).

(** The arrow key a letter key doubles. *)
Definition arrow_of (sym : SDL.Key) : SDL.Key :=
  match sym with
  | SDL.SDLK_s => SDL.SDLK_DOWN
  | SDL.SDLK_w => SDL.SDLK_UP
  | SDL.SDLK_a => SDL.SDLK_LEFT
  | SDL.SDLK_d => SDL.SDLK_RIGHT
  | _ => sym
  end.

Definition with_arrows (event : SDL.Event) : SDL.Event :=
  match event with
  | SDL.SDL_KEYDOWN sym => SDL.SDL_KEYDOWN (arrow_of sym)
  | SDL.SDL_KEYUP sym => SDL.SDL_KEYUP (arrow_of sym)
  | _ => event
  end.

(** A destination, moved down by [d] pixels. *)
Definition lowered (d : Z) (p : option SDL.Pos) : option SDL.Pos :=
  option_map (fun q => {| SDL.dx := SDL.dx q; SDL.dy := SDL.dy q + d |}) p.

(** The column of the atlas each blit reads from, in order. *)
Definition columns (calls : Cmd) : list (option Z) :=
  map (option_map SDL.x) (source_rects calls).

(** A call that, if it is a blit, reads an atlas of [self] and writes its
    screen. *)
Definition atlas_to_screen (self : PlatformSdl) (c : Call) : Prop :=
  match c with
  | SDL_BlitSurface src _ dst _ =>
      dst = mScreen self
      /\ (src = mBmpBack self \/ src = mBmpTiles self
          \/ src = mBmpNumbers self)
  | _ => True
  end.

(** The events whose end the adapter reports in every build. *)
Definition held_event (e : EventType) : bool :=
  match e with
  | EVENT_MOVE_DOWN | EVENT_MOVE_LEFT | EVENT_MOVE_RIGHT => true
  | _ => false
  end.

Section Readings.

Context {GC : GameConstants} {PC : PlatformConstants}.

(** The cells of a grid that hold a tile. *)
Definition occupied (cols rows : Z) (cell : Z -> Z -> Z) : list (Z * Z) :=
  filter (fun ij => negb (cell (fst ij) (snd ij) =? EMPTY_CELL))
         (grid cols rows).

(** The digit a glyph blit shows: the column of its source rectangle in the
    digit atlas. *)
Definition glyph_digit (c : Call) : Z :=
  match c with
  | SDL_BlitSurface _ (Some r) _ _ => SDL.x r / NUMBER_WIDTH
  | _ => 0
  end.

(** The number a field shows, its glyphs given least significant first. *)
Definition shown_number (calls : Cmd) : Z :=
  fold_right (fun c rest => glyph_digit c + 10 * rest) 0 calls.

(** The glyphs the HUD takes when it is drawn. *)
Definition hud_glyphs (g : Game) : nat :=
  list_sum (map (fun f => match f with
                          | (_, _, _, length, _) => Z.to_nat (Z.max length 1)
                          end) (hud_fields g)).

End Readings.

(** The abscissa of each blit's destination, in order. *)
Definition abscissas (calls : Cmd) : list (option Z) :=
  map (option_map SDL.dx) (destinations calls).

(** The line of each blit's destination, in order. *)
Definition lines_of (calls : Cmd) : list (option Z) :=
  map (option_map SDL.dy) (destinations calls).

Section Lines.

Context {PC : PlatformConstants} {SV : Blitter}.

(** The rectangle of the digit atlas a glyph is taken from. *)
Definition glyph_source (source_y digit : Z) : SDL.Rect :=
  {| SDL.x := C.Sint16 (NUMBER_WIDTH * digit);
     SDL.y := source_y;
     SDL.w := C.Uint16 NUMBER_WIDTH;
     SDL.h := C.Uint16 NUMBER_HEIGHT |}.

(** What [recDestine.y] holds [k] glyphs later, the loop of [drawNumber]
    being at [pos] with [number] left and [line] in [recDestine.y]: every
    blit on the way has left its own line there. *)
Fixpoint line_after (self : PlatformSdl) (x source_y length : Z)
    (pos number line : Z) (k : nat) : Z :=
  match k with
  | O => line
  | S k' =>
      line_after self x source_y length (pos + 1) (Z.quot number 10)
        (SDL.dy (SDL_BlitSurface_leaves (mBmpNumbers self)
                   (Some (glyph_source source_y (C.Sint16 (Z.rem number 10))))
                   (mScreen self)
                   {| SDL.dx := C.Sint16 (x + NUMBER_WIDTH * (length - pos));
                      SDL.dy := line |}))
        k'
  end.

(** The line the [k]-th glyph of a field is blitted on. *)
Definition glyph_line (self : PlatformSdl) (x y number length color : Z)
    (k : nat) : Z :=
  line_after self x (C.Sint16 (NUMBER_HEIGHT * color)) length 0 number
             (C.Sint16 y) k.

(** The blit of digit [digit] as the [k]-th glyph of a field of [length]
    digits at abscissa [x], on the line [line]. *)
Definition glyph_blit_on (self : PlatformSdl) (x line color length k digit : Z)
  : Call :=
  SDL_BlitSurface (mBmpNumbers self)
    (Some (glyph_source (C.Sint16 (NUMBER_HEIGHT * color)) digit))
    (mScreen self)
    (Some {| SDL.dx := C.Sint16 (x + NUMBER_WIDTH * (length - k));
             SDL.dy := line |}).

End Lines.

(** ** A blitter to run the adapter on *)

Module Clipped.

(** The rule of SDL 1.2 for surfaces whose clip rectangle starts at their
    origin: a source rectangle that starts left of or above its surface is
    cut and the destination moved as much, and a destination that starts
    left of or above the origin is moved to it; with a null surface nothing
    is written. *)
Definition leaves (src : pointer) (srcrect : option SDL.Rect)
    (dst : pointer) (d : SDL.Pos) : SDL.Pos :=
  if is_NULL src || is_NULL dst then d
  else
    let srcx := match srcrect with Some r => SDL.x r | None => 0 end in
    let srcy := match srcrect with Some r => SDL.y r | None => 0 end in
    let x1 := if srcx <? 0 then C.Sint16 (SDL.dx d - srcx) else SDL.dx d in
    let y1 := if srcy <? 0 then C.Sint16 (SDL.dy d - srcy) else SDL.dy d in
    {| SDL.dx := if 0 - x1 >? 0 then C.Sint16 (x1 + (0 - x1)) else x1;
       SDL.dy := if 0 - y1 >? 0 then C.Sint16 (y1 + (0 - y1)) else y1 |}.

Definition blitter : Blitter := {| SDL_BlitSurface_leaves := leaves |}.

End Clipped.

(** * Properties *)

(** ** Conversions *)

Lemma Sint16_id (z : Z) : C.in_Sint16 z -> C.Sint16 z = z.
Proof.
  unfold C.in_Sint16, C.Sint16. intros Hz.
  rewrite Z.mod_small; lia.
Qed.

Lemma Uint16_id (z : Z) : 0 <= z < 2 ^ 16 -> C.Uint16 z = z.
Proof. unfold C.Uint16. intros Hz. apply Z.mod_small. exact Hz. Qed.

(** A coordinate does not depend on whether the [int] it is converted from
    has wrapped around. *)
Lemma Sint16_int32 (z : Z) : C.Sint16 (C.int32 z) = C.Sint16 z.
Proof.
  unfold C.Sint16, C.int32. f_equal.
  pose proof (Z.div_mod (z + 2 ^ 31) (2 ^ 32) ltac:(lia)) as Hz.
  replace ((z + 2 ^ 31) mod 2 ^ 32 - 2 ^ 31 + 2 ^ 15)
    with (z + 2 ^ 15 + (- ((z + 2 ^ 31) / 2 ^ 32) * 2 ^ 16) * 2 ^ 16) by lia.
  apply Z.mod_add. lia.
Qed.

Lemma Sint16_digit (m : Z) : C.Sint16 (Z.rem m 10) = Z.rem m 10.
Proof.
  apply Sint16_id. unfold C.in_Sint16.
  pose proof (Z.rem_bound_abs m 10 ltac:(lia)) as Hb. cbn. lia.
Qed.

(** ** Loops *)

Lemma for_from_flat_map (trips : nat) (i : Z) (body : Z -> Cmd) :
  for_from trips i body
  = flat_map body (map (fun k => i + Z.of_nat k) (seq 0 trips)).
Proof.
  revert i. induction trips as [|trips IH]; intros i.
  - reflexivity.
  - cbn [for_from seq map flat_map]. rewrite IH, Z.add_0_r.
    do 2 f_equal. rewrite <- seq_shift, map_map.
    apply map_ext. intros k. lia.
Qed.

Lemma for_upto_flat_map (n : Z) (body : Z -> Cmd) :
  for_upto n body = flat_map body (range n).
Proof.
  unfold for_upto, range. rewrite for_from_flat_map.
  f_equal.
Qed.

Lemma flat_map_pairs (body : Z -> Z -> Cmd) (i : Z) (js : list Z) :
  flat_map (fun ij => body (fst ij) (snd ij)) (map (pair i) js)
  = flat_map (body i) js.
Proof.
  induction js as [|j js IH].
  - reflexivity.
  - cbn [map flat_map fst snd]. rewrite IH. reflexivity.
Qed.

Lemma nested_for_upto (cols rows : Z) (body : Z -> Z -> Cmd) :
  for_upto cols (fun i => for_upto rows (fun j => body i j))
  = flat_map (fun ij => body (fst ij) (snd ij)) (grid cols rows).
Proof.
  rewrite for_upto_flat_map. unfold grid.
  induction (range cols) as [|i l IH].
  - reflexivity.
  - cbn [flat_map]. rewrite flat_map_app, <- IH, flat_map_pairs.
    rewrite for_upto_flat_map. reflexivity.
Qed.

Lemma In_range (n k : Z) : In k (range n) <-> 0 <= k < n.
Proof.
  unfold range. rewrite in_map_iff. split.
  - intros (m & <- & Hm). apply in_seq in Hm. lia.
  - intros Hk. exists (Z.to_nat k). split; [lia|].
    apply in_seq. lia.
Qed.

Lemma In_grid (cols rows i j : Z) :
  In (i, j) (grid cols rows) <-> 0 <= i < cols /\ 0 <= j < rows.
Proof.
  unfold grid. rewrite in_flat_map. split.
  - intros (i' & Hi & Hj). apply in_map_iff in Hj.
    destruct Hj as (j' & Heq & Hj). inversion Heq; subst.
    apply In_range in Hi. apply In_range in Hj. tauto.
  - intros [Hi Hj]. exists i. split; [apply In_range; exact Hi|].
    apply in_map. apply In_range. exact Hj.
Qed.

Lemma NoDup_map_injective {A B} (f : A -> B) (l : list A) :
  (forall a b, f a = f b -> a = b) -> NoDup l -> NoDup (map f l).
Proof.
  intros Hinj. induction 1 as [|a l Ha _ IH]; cbn [map]; constructor.
  - rewrite in_map_iff. intros (b & Heq & Hb).
    apply Hinj in Heq. subst b. exact (Ha Hb).
  - exact IH.
Qed.

Lemma NoDup_range (n : Z) : NoDup (range n).
Proof.
  unfold range. apply NoDup_map_injective.
  - intros a b. apply Nat2Z.inj.
  - apply seq_NoDup.
Qed.

(** A pass visits no cell twice. *)
Lemma NoDup_grid (cols rows : Z) : NoDup (grid cols rows).
Proof.
  unfold grid. pose proof (NoDup_range cols) as Hcols.
  induction Hcols as [|i l Hi _ IH]; cbn [flat_map].
  - constructor.
  - apply NoDup_app.
    + apply NoDup_map_injective; [|apply NoDup_range].
      intros a b Heq. inversion Heq. reflexivity.
    + exact IH.
    + intros [i' j'] Hleft Hright.
      apply in_map_iff in Hleft. destruct Hleft as (j & Heq & _).
      inversion Heq; subst i' j'.
      apply in_flat_map in Hright. destruct Hright as (i2 & Hi2 & Hin).
      apply in_map_iff in Hin. destruct Hin as (j2 & Heq2 & _).
      inversion Heq2; subst i2. exact (Hi Hi2).
Qed.

Lemma observe_blits {A} (src : A -> pointer) (sr : A -> option SDL.Rect)
    (dst : A -> pointer) (dr : A -> option SDL.Pos) (l : list A) :
  sources (map (fun a => SDL_BlitSurface (src a) (sr a) (dst a) (dr a)) l)
  = map src l
  /\ source_rects
       (map (fun a => SDL_BlitSurface (src a) (sr a) (dst a) (dr a)) l)
     = map sr l
  /\ targets (map (fun a => SDL_BlitSurface (src a) (sr a) (dst a) (dr a)) l)
     = map dst l
  /\ destinations
       (map (fun a => SDL_BlitSurface (src a) (sr a) (dst a) (dr a)) l)
     = map dr l.
Proof.
  induction l as [|a l (Hs & Hr & Ht & Hd)]; [repeat split|].
  unfold sources, source_rects, targets, destinations in *.
  cbn [map flat_map app]. rewrite Hs, Hr, Ht, Hd. repeat split.
Qed.

Lemma nth_error_map_seq {A} (f : nat -> A) (n k : nat) :
  (k < n)%nat -> nth_error (map f (seq 0 n)) k = Some (f k).
Proof.
  intros Hk. rewrite nth_error_map, nth_error_seq.
  destruct (Nat.ltb_spec k n) as [_|Hge]; [reflexivity | lia].
Qed.

Section DrawNumber.

Context {PC : PlatformConstants} {SV : Blitter}.

(** The loop entered at [pos] issues the glyphs from [pos] on, one per trip,
    each on the line the blits before it have left, and makes one trip more
    than [length - pos - 1] when that is positive. *)
Lemma drawNumber_loop_glyphs (self : PlatformSdl) (x color length : Z) :
  forall (trips : nat) (pos number line : Z),
    Z.to_nat (length - pos - 1) = trips ->
    drawNumber_loop self x (C.Sint16 (NUMBER_HEIGHT * color)) line
      length pos number
    = map (fun k : nat =>
             glyph_blit_on self x
               (line_after self x (C.Sint16 (NUMBER_HEIGHT * color)) length
                           pos number line k)
               color length (pos + Z.of_nat k)
               (digit_at number (Z.of_nat k)))
          (seq 0 (S trips)).
Proof.
  induction trips as [|trips IH]; intros pos number line Htrips;
    rewrite drawNumber_loop_equation_1; cbv zeta;
    destruct (Z_lt_dec (pos + 1) length) as [Hlt|Hge]; try lia.
  - cbn [seq map line_after]. change (Z.of_nat 0) with 0.
    unfold glyph_blit_on, glyph_source, digit_at, skip.
    rewrite Z.add_0_r, Z.pow_0_r, Z.quot_1_r, Sint16_digit. reflexivity.
  - rewrite (IH (pos + 1) (Z.quot number 10)) by lia.
    change (seq 0 (S (S trips))) with (0%nat :: seq 1 (S trips)).
    rewrite <- seq_shift. cbn [map]. rewrite map_map.
    change (Z.of_nat 0) with 0. cbn [line_after].
    unfold glyph_blit_on at 2, glyph_source at 2, digit_at at 2.
    rewrite Z.add_0_r, Z.pow_0_r, Z.quot_1_r, Sint16_digit.
    f_equal. apply map_ext. intros k.
    unfold digit_at.
    rewrite Z.quot_quot by (try apply Z.pow_nonzero; lia).
    replace (10 * 10 ^ Z.of_nat k) with (10 ^ Z.of_nat (S k))
      by (rewrite Nat2Z.inj_succ, Z.pow_succ_r by lia; reflexivity).
    replace (pos + 1 + Z.of_nat k) with (pos + Z.of_nat (S k)) by lia.
    reflexivity.
Qed.

Lemma drawNumber_glyphs (self : PlatformSdl) (x y number length color : Z) :
  drawNumber self x y number length color
  = map (fun k : nat =>
           glyph_blit_on self x
             (glyph_line self x y number length color k)
             color length (Z.of_nat k)
             (digit_at number (Z.of_nat k)))
        (seq 0 (Z.to_nat (Z.max length 1))).
Proof.
  unfold drawNumber, glyph_line.
  rewrite (drawNumber_loop_glyphs self x color length
             (Z.to_nat (length - 0 - 1)) 0 number (C.Sint16 y) eq_refl).
  replace (S (Z.to_nat (length - 0 - 1))) with (Z.to_nat (Z.max length 1))
    by lia.
  reflexivity.
Qed.

Lemma drawNumber_length (self : PlatformSdl) (x y number length color : Z) :
  List.length (drawNumber self x y number length color)
  = Z.to_nat (Z.max length 1).
Proof. rewrite drawNumber_glyphs, length_map, length_seq. reflexivity. Qed.

Lemma digit_at_nonneg (number k : Z) :
  0 <= number -> 0 <= k -> digit_at number k = (number / 10 ^ k) mod 10.
Proof.
  intros Hn Hk. unfold digit_at.
  assert (0 < 10 ^ k) by (apply Z.pow_pos_nonneg; lia).
  rewrite Z.quot_div_nonneg by lia.
  apply Z.rem_mod_nonneg; [apply Z.div_pos; lia | lia].
Qed.

End DrawNumber.

(** ** Counting calls *)

Lemma count_app (p : Call -> bool) (a b : Cmd) :
  count p (a ++ b) = (count p a + count p b)%nat.
Proof. unfold count. rewrite filter_app, length_app. reflexivity. Qed.

Lemma count_all (p : Call -> bool) (calls : Cmd) :
  Forall (fun c => p c = true) calls -> count p calls = List.length calls.
Proof.
  unfold count. induction 1 as [|c l Hc _ IH]; cbn; [reflexivity|].
  rewrite Hc. cbn. rewrite IH. reflexivity.
Qed.

Lemma count_none (p : Call -> bool) (calls : Cmd) :
  Forall (fun c => p c = false) calls -> count p calls = 0%nat.
Proof.
  unfold count. induction 1 as [|c l Hc _ IH]; cbn; [reflexivity|].
  rewrite Hc. exact IH.
Qed.

Lemma drawNumber_blits {PC : PlatformConstants} {SV : Blitter}
    (self : PlatformSdl) (x y number length color : Z) :
  Forall (fun c => is_blit c = true) (drawNumber self x y number length color).
Proof.
  rewrite drawNumber_glyphs. apply Forall_forall. intros c Hc.
  apply in_map_iff in Hc. destruct Hc as (k & <- & _). reflexivity.
Qed.

(** ** [drawNumber] *)

Lemma drawNumber_observed {PC : PlatformConstants} {SV : Blitter}
    (self : PlatformSdl) (x y number length color : Z) :
  sources (drawNumber self x y number length color)
  = map (fun _ : nat => mBmpNumbers self)
        (seq 0 (Z.to_nat (Z.max length 1)))
  /\ source_rects (drawNumber self x y number length color)
     = map (fun k : nat =>
              Some (glyph_source (C.Sint16 (NUMBER_HEIGHT * color))
                                 (digit_at number (Z.of_nat k))))
           (seq 0 (Z.to_nat (Z.max length 1)))
  /\ targets (drawNumber self x y number length color)
     = map (fun _ : nat => mScreen self)
           (seq 0 (Z.to_nat (Z.max length 1)))
  /\ destinations (drawNumber self x y number length color)
     = map (fun k : nat =>
              Some {| SDL.dx := C.Sint16 (x + NUMBER_WIDTH
                                              * (length - Z.of_nat k));
                      SDL.dy := glyph_line self x y number length color k |})
           (seq 0 (Z.to_nat (Z.max length 1))).
Proof.
  rewrite drawNumber_glyphs. unfold glyph_blit_on.
  apply (observe_blits
           (fun _ : nat => mBmpNumbers self)
           (fun k : nat =>
              Some (glyph_source (C.Sint16 (NUMBER_HEIGHT * color))
                                 (digit_at number (Z.of_nat k))))
           (fun _ : nat => mScreen self)
           (fun k : nat =>
              Some {| SDL.dx := C.Sint16 (x + NUMBER_WIDTH
                                              * (length - Z.of_nat k));
                      SDL.dy := glyph_line self x y number length color k |})).
Qed.

Lemma drawNumber_abscissas {PC : PlatformConstants} {SV : Blitter}
    (self : PlatformSdl) (x y number length color : Z) :
  abscissas (drawNumber self x y number length color)
  = map (fun k : nat =>
           Some (C.Sint16 (x + NUMBER_WIDTH * (length - Z.of_nat k))))
        (seq 0 (Z.to_nat (Z.max length 1))).
Proof.
  unfold abscissas.
  rewrite (proj2 (proj2 (proj2
             (drawNumber_observed self x y number length color)))).
  rewrite map_map. reflexivity.
Qed.

(** C3, amended: for a field of at least one digit, [drawNumber] issues
    exactly [length] glyph blits whatever the magnitude of [number]; the
    [k]-th one draws the digit [(number / 10^k) % 10] (the quotient and
    remainder of C++, which for a non-negative number are the mathematical
    ones) at the horizontal position [x + NUMBER_WIDTH * (length - k)]
    converted to the signed 16-bit coordinate of the rectangle (the same
    value whenever it fits), least significant digit first and leftwards,
    leading zeros included; [drawNumber(x, y, 7, 3, COLOR_WHITE)] issues the
    digits 7, 0, 0 from right to left. *)
Theorem drawNumber_digits {GC : GameConstants} {PC : PlatformConstants}
    {SV : Blitter} (self : PlatformSdl) (x y number length color : Z) :
  1 <= length ->
  count is_blit (drawNumber self x y number length color) = Z.to_nat length
  /\ List.length (drawNumber self x y number length color) = Z.to_nat length
  /\ (forall k : nat,
        Z.of_nat k < length ->
        nth_error (sources (drawNumber self x y number length color)) k
        = Some (mBmpNumbers self)
        /\ nth_error (source_rects (drawNumber self x y number length color))
                     k
           = Some (Some {| SDL.x := C.Sint16 (NUMBER_WIDTH
                                              * digit_at number (Z.of_nat k));
                           SDL.y := C.Sint16 (NUMBER_HEIGHT * color);
                           SDL.w := C.Uint16 NUMBER_WIDTH;
                           SDL.h := C.Uint16 NUMBER_HEIGHT |})
        /\ nth_error (targets (drawNumber self x y number length color)) k
           = Some (mScreen self)
        /\ nth_error (abscissas (drawNumber self x y number length color)) k
           = Some (Some (C.Sint16 (x + NUMBER_WIDTH
                                       * (length - Z.of_nat k)))))
  /\ (forall k : Z,
        0 <= number -> 0 <= k ->
        digit_at number k = (number / 10 ^ k) mod 10)
  /\ (forall k : nat,
        Z.of_nat k < length ->
        C.in_Sint16 (x + NUMBER_WIDTH * (length - Z.of_nat k)) ->
        nth_error (abscissas (drawNumber self x y number length color)) k
        = Some (Some (x + NUMBER_WIDTH * (length - Z.of_nat k))))
  /\ (source_rects (drawNumber self x y 7 3 COLOR_WHITE)
      = map (fun digit =>
               Some {| SDL.x := C.Sint16 (NUMBER_WIDTH * digit);
                       SDL.y := C.Sint16 (NUMBER_HEIGHT * COLOR_WHITE);
                       SDL.w := C.Uint16 NUMBER_WIDTH;
                       SDL.h := C.Uint16 NUMBER_HEIGHT |})
            [7; 0; 0]
      /\ abscissas (drawNumber self x y 7 3 COLOR_WHITE)
         = [ Some (C.Sint16 (x + NUMBER_WIDTH * (3 - 0)));
             Some (C.Sint16 (x + NUMBER_WIDTH * (3 - 1)));
             Some (C.Sint16 (x + NUMBER_WIDTH * (3 - 2))) ]).
Proof.
  intros Hlen.
  assert (Htrips : Z.to_nat (Z.max length 1) = Z.to_nat length) by lia.
  destruct (drawNumber_observed self x y number length color)
    as (Hsrc & Hrect & Hdst & _).
  pose proof (drawNumber_abscissas self x y number length color) as Habs.
  split; [|split; [|split; [|split; [|split]]]].
  - rewrite count_all by apply drawNumber_blits.
    rewrite drawNumber_length. exact Htrips.
  - rewrite drawNumber_length. exact Htrips.
  - intros k Hk. rewrite Hsrc, Hrect, Hdst, Habs.
    rewrite !nth_error_map_seq by lia. repeat split.
  - intros k Hn Hk. apply digit_at_nonneg; assumption.
  - intros k Hk Hfit. rewrite Habs, nth_error_map_seq by lia.
    rewrite Sint16_id by exact Hfit. reflexivity.
  - split.
    + rewrite (proj1 (proj2 (drawNumber_observed self x y 7 3 COLOR_WHITE))).
      reflexivity.
    + rewrite drawNumber_abscissas. reflexivity.
Qed.

Lemma drawNumber_digits_witness :
  nth_error (source_rects
               (drawNumber (PC := Sample.platform_constants)
                           (SV := Clipped.blitter)
                           Sample.self 10 20 1250 3 0)) 1
  = Some (Some {| SDL.x := 35; SDL.y := 0; SDL.w := 7; SDL.h := 9 |})
  /\ nth_error (abscissas
                  (drawNumber (PC := Sample.platform_constants)
                              (SV := Clipped.blitter)
                              Sample.self 10 20 1250 3 0)) 1
     = Some (Some 24).
Proof.
  pose proof (proj1 (proj2 (proj2
    (drawNumber_digits (GC := Sample.game_constants)
       (PC := Sample.platform_constants) (SV := Clipped.blitter)
       Sample.self 10 20 1250 3 0 ltac:(lia)))) 1%nat eq_refl) as Hthm.
  split; apply Hthm.
Defined.

(** C3, as stated, fails: a field of zero digits still gets one glyph, and
    a position outside the signed 16-bit range is not the one blitted at. *)
Lemma drawNumber_digits_counterexample :
  count is_blit (drawNumber (PC := Sample.platform_constants)
                            (SV := Clipped.blitter)
                            Sample.self 10 20 7 0 0)
  <> Z.to_nat 0
  /\ destinations (drawNumber (PC := Sample.platform_constants)
                              (SV := Clipped.blitter)
                              Sample.self 40000 20 7 1 0)
     <> [Some {| SDL.dx := 40000 + 7 * (1 - 0); SDL.dy := 20 |}].
Proof. split; vm_compute; discriminate. Qed.

(** C10: with [length <= 0] the body of the loop still runs once before the
    count is tested, so one glyph is blitted; the number of blits is
    [max(length, 1)] for every [length]. *)
Theorem drawNumber_at_least_once {PC : PlatformConstants}
    {SV : Blitter} (self : PlatformSdl) (x y number length color : Z) :
  (length <= 0 ->
   drawNumber self x y number length color
   = [glyph_blit self x y color length 0 (digit_at number 0)]
   /\ count is_blit (drawNumber self x y number length color) = 1%nat)
  /\ count is_blit (drawNumber self x y number length color)
     = Z.to_nat (Z.max length 1).
Proof.
  assert (Hcount : count is_blit (drawNumber self x y number length color)
                   = Z.to_nat (Z.max length 1)).
  { rewrite count_all by apply drawNumber_blits. apply drawNumber_length. }
  split; [|exact Hcount].
  intros Hlen. split.
  - rewrite drawNumber_glyphs.
    replace (Z.to_nat (Z.max length 1)) with 1%nat by lia. reflexivity.
  - rewrite Hcount. lia.
Qed.

Lemma drawNumber_at_least_once_witness :
  drawNumber (PC := Sample.platform_constants) (SV := Clipped.blitter)
             Sample.self 10 20 1250 (-2) 0
  = [glyph_blit (PC := Sample.platform_constants)
                Sample.self 10 20 0 (-2) 0 0].
Proof.
  apply (proj1 (proj1
    (drawNumber_at_least_once (PC := Sample.platform_constants)
       (SV := Clipped.blitter) Sample.self 10 20 1250 (-2) 0) ltac:(lia))).
Defined.

(** ** [drawTile] *)

(** C8, amended: [drawTile] issues exactly one blit, from the tile atlas to
    the screen; its destination is [(screenX, screenY)], each converted to
    the signed 16-bit coordinate of the rectangle, hence [(screenX, screenY)]
    itself whenever both fit; its source is a square of side [TILE_SIZE + 1]
    at the horizontal offset [TILE_SIZE * tileIndex] (as a signed 16-bit
    coordinate), and the row is chosen by [isGhost] alone: 0 for the normal
    variant and [TILE_SIZE + 1] for the ghost variant. *)
Theorem drawTile_blit {PC : PlatformConstants}
    (self : PlatformSdl) (x y tile : Z) (shadow : bool) :
  0 <= TILE_SIZE + 1 < 2 ^ 15 ->
  drawTile self x y tile shadow
  = [SDL_BlitSurface (mBmpTiles self)
       (Some {| SDL.x := C.Sint16 (TILE_SIZE * tile);
                SDL.y := if shadow then TILE_SIZE + 1 else 0;
                SDL.w := TILE_SIZE + 1;
                SDL.h := TILE_SIZE + 1 |})
       (mScreen self)
       (Some {| SDL.dx := C.Sint16 x; SDL.dy := C.Sint16 y |})]
  /\ (C.in_Sint16 x -> C.in_Sint16 y ->
      destinations (drawTile self x y tile shadow)
      = [Some {| SDL.dx := x; SDL.dy := y |}])
  /\ (C.in_Sint16 (TILE_SIZE * tile) ->
      C.Sint16 (TILE_SIZE * tile) = TILE_SIZE * tile).
Proof.
  intros Hsize. unfold drawTile. split; [|split].
  - rewrite Uint16_id by lia. do 3 f_equal.
    f_equal. destruct shadow;
      [rewrite Z.mul_1_r | rewrite Z.mul_0_r];
      apply Sint16_id; unfold C.in_Sint16; lia.
  - intros Hx Hy. cbn. rewrite !Sint16_id by assumption. reflexivity.
  - apply Sint16_id.
Qed.

Lemma drawTile_blit_witness :
  drawTile (PC := Sample.platform_constants) Sample.self 228 244 7 true
  = [SDL_BlitSurface (Some 2%positive)
       (Some {| SDL.x := 84; SDL.y := 13; SDL.w := 13; SDL.h := 13 |})
       (Some 1%positive)
       (Some {| SDL.dx := 228; SDL.dy := 244 |})].
Proof.
  apply (proj1 (drawTile_blit (PC := Sample.platform_constants)
                  Sample.self 228 244 7 true ltac:(cbn; lia))).
Defined.

(** C8, as stated, fails: a destination outside the signed 16-bit range is
    not where the tile is blitted. *)
Lemma drawTile_blit_counterexample :
  destinations (drawTile (PC := Sample.platform_constants)
                         Sample.self 40000 0 1 false)
  <> [Some {| SDL.dx := 40000; SDL.dy := 0 |}].
Proof. vm_compute. discriminate. Qed.

(** ** The passes of a frame *)

Section Passes.

Context {GC : GameConstants} {PC : PlatformConstants} {BS : BuildSwitches}
        {SV : Blitter}.

Lemma tile_or_skip (self : PlatformSdl) (tile px py : Z) (ghost : bool) :
  (if negb (tile =? EMPTY_CELL) then drawTile self px py tile ghost else skip)
  = cell_blits self tile px py ghost.
Proof. unfold cell_blits. destruct (tile =? EMPTY_CELL); reflexivity. Qed.

Lemma preview_pass (self : PlatformSdl) (g : Game) :
  renderGame_preview self g
  = grid_blits self TETROMINO_SIZE TETROMINO_SIZE
      (StcTetromino.cells (nextBlock g))
      (fun i => PREVIEW_X + TILE_SIZE * i)
      (fun j => PREVIEW_Y + TILE_SIZE * j) false.
Proof.
  unfold renderGame_preview, grid_blits. rewrite nested_for_upto.
  apply flat_map_ext. intros ij. apply tile_or_skip.
Qed.

Lemma shadow_pass (self : PlatformSdl) (g : Game) :
  renderGame_shadow self g
  = grid_blits self TETROMINO_SIZE TETROMINO_SIZE
      (StcTetromino.cells (fallingBlock g))
      (fun i => BOARD_X + TILE_SIZE * (StcTetromino.x (fallingBlock g) + i))
      (fun j => BOARD_Y + TILE_SIZE * (StcTetromino.y (fallingBlock g)
                                       + shadowGap g + j)) true.
Proof.
  unfold renderGame_shadow, grid_blits. rewrite nested_for_upto.
  apply flat_map_ext. intros ij. apply tile_or_skip.
Qed.

Lemma board_pass (self : PlatformSdl) (g : Game) :
  renderGame_board self g
  = grid_blits self BOARD_TILEMAP_WIDTH BOARD_TILEMAP_HEIGHT (getCell g)
      (fun i => BOARD_X + TILE_SIZE * i)
      (fun j => BOARD_Y + TILE_SIZE * j) false.
Proof.
  unfold renderGame_board, grid_blits. rewrite nested_for_upto.
  apply flat_map_ext. intros ij. apply tile_or_skip.
Qed.

Lemma falling_pass (self : PlatformSdl) (g : Game) :
  renderGame_falling self g
  = grid_blits self TETROMINO_SIZE TETROMINO_SIZE
      (StcTetromino.cells (fallingBlock g))
      (fun i => BOARD_X + TILE_SIZE * (StcTetromino.x (fallingBlock g) + i))
      (fun j => BOARD_Y + TILE_SIZE * (StcTetromino.y (fallingBlock g) + j))
      false.
Proof.
  unfold renderGame_falling, grid_blits. rewrite nested_for_upto.
  apply flat_map_ext. intros ij. apply tile_or_skip.
Qed.

Lemma stats_pass (self : PlatformSdl) (g : Game) :
  renderGame_stats self g = hud_blits self g.
Proof.
  unfold renderGame_stats, hud_blits, hud_fields. cbn [flat_map].
  rewrite app_nil_r. reflexivity.
Qed.

Lemma cell_blits_are_blits (self : PlatformSdl) (tile px py : Z)
    (ghost : bool) :
  Forall (fun c => is_blit c = true) (cell_blits self tile px py ghost).
Proof.
  unfold cell_blits. destruct (tile =? EMPTY_CELL); repeat constructor.
Qed.

Lemma Forall_flat_map_all {A} (P : Call -> Prop) (f : A -> Cmd)
    (l : list A) :
  (forall a, Forall P (f a)) -> Forall P (flat_map f l).
Proof.
  intros Hf. induction l as [|a l IH]; cbn [flat_map].
  - constructor.
  - apply Forall_app. split; [apply Hf | exact IH].
Qed.

Lemma Forall_blits_app (a b : Cmd) :
  Forall (fun c => is_blit c = true) a /\ Forall (fun c => is_blit c = true) b
  -> Forall (fun c => is_blit c = true) (a ++ b).
Proof. apply Forall_app. Qed.

Lemma grid_blits_are_blits (self : PlatformSdl) (cols rows : Z)
    (cell : Z -> Z -> Z) (px py : Z -> Z) (ghost : bool) :
  Forall (fun c => is_blit c = true)
         (grid_blits self cols rows cell px py ghost).
Proof.
  unfold grid_blits. apply Forall_flat_map_all. intros ij.
  apply cell_blits_are_blits.
Qed.

Lemma hud_blits_are_blits (self : PlatformSdl) (g : Game) :
  Forall (fun c => is_blit c = true) (hud_blits self g).
Proof.
  unfold hud_blits. apply Forall_flat_map_all.
  intros [[[[x y] number] length] color]. apply drawNumber_blits.
Qed.

Lemma hud_blits_not_empty (self : PlatformSdl) (g : Game) :
  hud_blits self g <> [].
Proof.
  intros Hnil. apply (f_equal (@List.length Call)) in Hnil.
  unfold hud_blits, hud_fields in Hnil. cbn [flat_map] in Hnil.
  rewrite length_app, drawNumber_length in Hnil. cbn in Hnil. lia.
Qed.

(** The number of blits of a pass is the number of its non-empty cells. *)
Lemma grid_blits_count (self : PlatformSdl) (cols rows : Z)
    (cell : Z -> Z -> Z) (px py : Z -> Z) (ghost : bool) :
  count is_blit (grid_blits self cols rows cell px py ghost)
  = List.length (filter (fun ij => negb (cell (fst ij) (snd ij)
                                         =? EMPTY_CELL))
                        (grid cols rows)).
Proof.
  unfold grid_blits. induction (grid cols rows) as [|ij l IH].
  - reflexivity.
  - cbn [flat_map filter]. rewrite count_app, IH. unfold cell_blits.
    destruct (cell (fst ij) (snd ij) =? EMPTY_CELL); reflexivity.
Qed.

(** The frame of a changed state, pass by pass. *)
Lemma renderGame_changed (self : PlatformSdl) (g : Game) :
  hasChanged g = true ->
  renderGame self g
  = [SDL_BlitSurface (mBmpBack self) None (mScreen self) None]
    ++ (if showPreview g
        then grid_blits self TETROMINO_SIZE TETROMINO_SIZE
               (StcTetromino.cells (nextBlock g))
               (fun i => PREVIEW_X + TILE_SIZE * i)
               (fun j => PREVIEW_Y + TILE_SIZE * j) false
        else [])
    ++ (if STC_SHOW_GHOST_PIECE && (showShadow g && (shadowGap g >? 0))
        then grid_blits self TETROMINO_SIZE TETROMINO_SIZE
               (StcTetromino.cells (fallingBlock g))
               (fun i => BOARD_X
                         + TILE_SIZE * (StcTetromino.x (fallingBlock g) + i))
               (fun j => BOARD_Y
                         + TILE_SIZE * (StcTetromino.y (fallingBlock g)
                                        + shadowGap g + j)) true
        else [])
    ++ grid_blits self BOARD_TILEMAP_WIDTH BOARD_TILEMAP_HEIGHT (getCell g)
         (fun i => BOARD_X + TILE_SIZE * i)
         (fun j => BOARD_Y + TILE_SIZE * j) false
    ++ grid_blits self TETROMINO_SIZE TETROMINO_SIZE
         (StcTetromino.cells (fallingBlock g))
         (fun i => BOARD_X
                   + TILE_SIZE * (StcTetromino.x (fallingBlock g) + i))
         (fun j => BOARD_Y
                   + TILE_SIZE * (StcTetromino.y (fallingBlock g) + j)) false
    ++ (if isPaused g then [] else hud_blits self g)
    ++ [onChangeProcessed; SDL_Flip (mScreen self); SDL_Delay SLEEP_TIME].
Proof.
  intros Hchanged. unfold renderGame. rewrite Hchanged.
  rewrite preview_pass, shadow_pass, board_pass, falling_pass, stats_pass.
  unfold skip. repeat rewrite <- app_assoc. cbn [app].
  do 2 f_equal.
  destruct STC_SHOW_GHOST_PIECE, (showShadow g && (shadowGap g >? 0)),
    (isPaused g); reflexivity.
Qed.

(** Everything a frame issues before the acknowledgment is a blit. *)
Lemma renderGame_changed_blits (self : PlatformSdl) (g : Game) :
  hasChanged g = true ->
  exists blits : Cmd,
    Forall (fun c => is_blit c = true) blits
    /\ renderGame self g
       = blits ++ [onChangeProcessed; SDL_Flip (mScreen self);
                   SDL_Delay SLEEP_TIME].
Proof.
  intros Hchanged. rewrite (renderGame_changed self g Hchanged).
  eexists. split; [|repeat rewrite app_assoc; reflexivity].
  repeat (apply Forall_blits_app; split).
  - repeat constructor.
  - destruct (showPreview g); [apply grid_blits_are_blits | constructor].
  - destruct (STC_SHOW_GHOST_PIECE && (showShadow g && (shadowGap g >? 0)));
      [apply grid_blits_are_blits | constructor].
  - apply grid_blits_are_blits.
  - apply grid_blits_are_blits.
  - destruct (isPaused g); [constructor | apply hud_blits_are_blits].
Qed.

Lemma renderGame_unchanged (self : PlatformSdl) (g : Game) :
  hasChanged g = false -> renderGame self g = [SDL_Delay SLEEP_TIME].
Proof. intros Hsame. unfold renderGame. rewrite Hsame. reflexivity. Qed.

End Passes.

(** ** [renderGame] *)

Lemma perform_all_app (screen : pointer) (s : Surface) (a b : Cmd) :
  perform_all screen s (a ++ b)
  = perform_all screen (perform_all screen s a) b.
Proof. unfold perform_all. apply fold_left_app. Qed.

(** C1: while the engine reports no change, an invocation of [renderGame]
    issues the fixed sleep and nothing else: no blit, no flip, no
    [onChangeProcessed], and the Surface is as it was; so any number of such
    invocations in a row give no flip and as many sleeps of [SLEEP_TIME]. *)
Theorem renderGame_idle {GC : GameConstants} {PC : PlatformConstants}
    {SV : Blitter} {BS : BuildSwitches}
    (self : PlatformSdl) (iterations : list Game) :
  Forall (fun g => hasChanged g = false) iterations ->
  Forall (fun g => renderGame self g = [SDL_Delay SLEEP_TIME]) iterations
  /\ count is_blit (flat_map (renderGame self) iterations) = 0%nat
  /\ count is_flip (flat_map (renderGame self) iterations) = 0%nat
  /\ count is_onChangeProcessed (flat_map (renderGame self) iterations)
     = 0%nat
  /\ (forall s : Surface,
        perform_all (mScreen self) s (flat_map (renderGame self) iterations)
        = s)
  /\ delays (flat_map (renderGame self) iterations)
     = repeat SLEEP_TIME (List.length iterations).
Proof.
  intros Hidle.
  assert (Heach : Forall (fun g => renderGame self g = [SDL_Delay SLEEP_TIME])
                         iterations).
  { apply Forall_forall. intros g Hg. apply renderGame_unchanged.
    exact (proj1 (Forall_forall _ _) Hidle g Hg). }
  split; [exact Heach|].
  clear Hidle. induction Heach as [|g gs Hg _ IH].
  - repeat split.
  - destruct IH as (Hblit & Hflip & Hack & Hsurface & Hdelays).
    cbn [flat_map List.length repeat]. rewrite Hg.
    repeat split.
    + rewrite count_app, Hblit. reflexivity.
    + rewrite count_app, Hflip. reflexivity.
    + rewrite count_app, Hack. reflexivity.
    + intros s. rewrite perform_all_app. cbn. apply Hsurface.
    + unfold delays in *. cbn [flat_map app]. rewrite Hdelays. reflexivity.
Qed.

Lemma renderGame_idle_witness :
  count is_flip
    (flat_map (renderGame (GC := Sample.game_constants)
                          (PC := Sample.platform_constants)
                          (BS := Sample.switches)
                          (SV := Clipped.blitter) Sample.self)
              (repeat Sample.unchanged 10)) = 0%nat
  /\ delays
       (flat_map (renderGame (GC := Sample.game_constants)
                             (PC := Sample.platform_constants)
                             (BS := Sample.switches)
                             (SV := Clipped.blitter) Sample.self)
                 (repeat Sample.unchanged 10))
     = repeat 40 10.
Proof.
  assert (Hidle : Forall (fun g => hasChanged g = false)
                         (repeat Sample.unchanged 10)).
  { repeat constructor. }
  pose proof (renderGame_idle (GC := Sample.game_constants)
                (PC := Sample.platform_constants) (BS := Sample.switches)
                (SV := Clipped.blitter)
                Sample.self (repeat Sample.unchanged 10) Hidle) as Hthm.
  split; [apply Hthm | apply Hthm].
Defined.

(** C2: when the engine reports a change, an invocation of [renderGame]
    calls [onChangeProcessed] exactly once, after every blit of the frame
    and before the one flip of the buffers. *)
Theorem renderGame_acknowledges {GC : GameConstants}
    {PC : PlatformConstants} {SV : Blitter} {BS : BuildSwitches}
    (self : PlatformSdl) (g : Game) :
  hasChanged g = true ->
  (exists blits : Cmd,
     Forall (fun c => is_blit c = true) blits
     /\ renderGame self g
        = blits ++ [onChangeProcessed; SDL_Flip (mScreen self);
                    SDL_Delay SLEEP_TIME])
  /\ count is_onChangeProcessed (renderGame self g) = 1%nat
  /\ count is_flip (renderGame self g) = 1%nat.
Proof.
  intros Hchanged.
  destruct (renderGame_changed_blits self g Hchanged) as (blits & Hb & Heq).
  split; [exists blits; split; assumption|].
  assert (Hno : forall p : Call -> bool,
             (forall c, is_blit c = true -> p c = false) ->
             count p blits = 0%nat).
  { intros p Hp. apply count_none.
    apply (Forall_impl _ Hp). exact Hb. }
  rewrite Heq, !count_app. split.
  - rewrite Hno by (intros [] Hc; try discriminate; reflexivity).
    reflexivity.
  - rewrite Hno by (intros [] Hc; try discriminate; reflexivity).
    reflexivity.
Qed.

Lemma renderGame_acknowledges_witness :
  count is_onChangeProcessed
    (renderGame (GC := Sample.game_constants)
                (PC := Sample.platform_constants)
                (BS := Sample.switches)
                (SV := Clipped.blitter) Sample.self Sample.changed)
  = 1%nat.
Proof.
  apply (renderGame_acknowledges (GC := Sample.game_constants)
           (PC := Sample.platform_constants) (BS := Sample.switches)
           (SV := Clipped.blitter)
           Sample.self Sample.changed).
  reflexivity.
Defined.

(** C6: in a rendering pass, each pass over a grid that the frame runs (the
    preview if it is shown, the ghost if it is shown and the gap positive,
    the board, the falling piece) visits the cells of its grid once each; a
    cell equal to [EMPTY_CELL] gets no blit and every other cell gets
    exactly one, whose source rectangle is a function of the cell's tile
    identifier and of the ghost mode only. *)
Theorem grid_cells_blitted {GC : GameConstants} {PC : PlatformConstants}
    {BS : BuildSwitches} {SV : Blitter} (self : PlatformSdl) (g : Game) :
  hasChanged g = true ->
  renderGame self g
  = [SDL_BlitSurface (mBmpBack self) None (mScreen self) None]
    ++ (if showPreview g
        then flat_map
               (fun ij =>
                  cell_blits self
                    (StcTetromino.cells (nextBlock g) (fst ij) (snd ij))
                    (PREVIEW_X + TILE_SIZE * fst ij)
                    (PREVIEW_Y + TILE_SIZE * snd ij) false)
               (grid TETROMINO_SIZE TETROMINO_SIZE)
        else [])
    ++ (if STC_SHOW_GHOST_PIECE && (showShadow g && (shadowGap g >? 0))
        then flat_map
               (fun ij =>
                  cell_blits self
                    (StcTetromino.cells (fallingBlock g) (fst ij) (snd ij))
                    (BOARD_X + TILE_SIZE
                               * (StcTetromino.x (fallingBlock g) + fst ij))
                    (BOARD_Y + TILE_SIZE
                               * (StcTetromino.y (fallingBlock g)
                                  + shadowGap g + snd ij)) true)
               (grid TETROMINO_SIZE TETROMINO_SIZE)
        else [])
    ++ flat_map
         (fun ij =>
            cell_blits self (getCell g (fst ij) (snd ij))
              (BOARD_X + TILE_SIZE * fst ij)
              (BOARD_Y + TILE_SIZE * snd ij) false)
         (grid BOARD_TILEMAP_WIDTH BOARD_TILEMAP_HEIGHT)
    ++ flat_map
         (fun ij =>
            cell_blits self
              (StcTetromino.cells (fallingBlock g) (fst ij) (snd ij))
              (BOARD_X + TILE_SIZE
                         * (StcTetromino.x (fallingBlock g) + fst ij))
              (BOARD_Y + TILE_SIZE
                         * (StcTetromino.y (fallingBlock g) + snd ij))
              false)
         (grid TETROMINO_SIZE TETROMINO_SIZE)
    ++ (if isPaused g then [] else hud_blits self g)
    ++ [onChangeProcessed; SDL_Flip (mScreen self); SDL_Delay SLEEP_TIME]
  /\ (forall (tile px py : Z) (ghost : bool),
        tile = EMPTY_CELL -> cell_blits self tile px py ghost = [])
  /\ (forall (tile px py : Z) (ghost : bool),
        tile <> EMPTY_CELL ->
        cell_blits self tile px py ghost
        = [SDL_BlitSurface (mBmpTiles self) (Some (tile_source tile ghost))
             (mScreen self)
             (Some {| SDL.dx := C.Sint16 px; SDL.dy := C.Sint16 py |})])
  /\ (forall cols rows : Z,
        NoDup (grid cols rows)
        /\ forall i j : Z,
             In (i, j) (grid cols rows) <-> 0 <= i < cols /\ 0 <= j < rows).
Proof.
  intros Hchanged. split; [|split; [|split]].
  - rewrite (renderGame_changed self g Hchanged). reflexivity.
  - intros tile px py ghost ->. unfold cell_blits.
    rewrite Z.eqb_refl. reflexivity.
  - intros tile px py ghost Htile. unfold cell_blits.
    destruct (Z.eqb_spec tile EMPTY_CELL) as [Heq|_]; [contradiction|].
    reflexivity.
  - intros cols rows. split; [apply NoDup_grid|].
    intros i j. apply In_grid.
Qed.

Lemma grid_cells_blitted_witness :
  cell_blits (GC := Sample.game_constants) (PC := Sample.platform_constants)
             Sample.self 7 228 244 true
  = [SDL_BlitSurface (Some 2%positive)
       (Some {| SDL.x := 84; SDL.y := 13; SDL.w := 13; SDL.h := 13 |})
       (Some 1%positive)
       (Some {| SDL.dx := 228; SDL.dy := 244 |})]
  /\ cell_blits (GC := Sample.game_constants)
                (PC := Sample.platform_constants)
                Sample.self 0 228 244 true
     = [].
Proof.
  pose proof (grid_cells_blitted (GC := Sample.game_constants)
                (PC := Sample.platform_constants) (BS := Sample.switches)
                (SV := Clipped.blitter)
                Sample.self Sample.changed eq_refl)
    as (_ & Hempty & Hfull & _).
  split.
  - apply (Hfull 7 228 244 true). discriminate.
  - apply (Hempty 0 228 244 true). reflexivity.
Defined.

(** C9: a rendering pass draws, in this order: the full background; the
    preview grid if and only if [showPreview()]; the ghost piece only if
    [showShadow()] holds and [shadowGap()] is strictly positive (and the
    build shows ghost pieces), lowered by that gap and in ghost mode; every
    non-empty cell of the board; the falling piece at its own position; and
    the HUD numerals (level, lines, score, the count of each shape in its
    color, total pieces) if and only if [isPaused()] is false. *)
Theorem renderGame_order {GC : GameConstants} {PC : PlatformConstants}
    {SV : Blitter} {BS : BuildSwitches} (self : PlatformSdl) (g : Game) :
  hasChanged g = true ->
  renderGame self g
  = [SDL_BlitSurface (mBmpBack self) None (mScreen self) None]
    ++ (if showPreview g
        then grid_blits self TETROMINO_SIZE TETROMINO_SIZE
               (StcTetromino.cells (nextBlock g))
               (fun i => PREVIEW_X + TILE_SIZE * i)
               (fun j => PREVIEW_Y + TILE_SIZE * j) false
        else [])
    ++ (if STC_SHOW_GHOST_PIECE && (showShadow g && (shadowGap g >? 0))
        then grid_blits self TETROMINO_SIZE TETROMINO_SIZE
               (StcTetromino.cells (fallingBlock g))
               (fun i => BOARD_X
                         + TILE_SIZE * (StcTetromino.x (fallingBlock g) + i))
               (fun j => BOARD_Y
                         + TILE_SIZE * (StcTetromino.y (fallingBlock g)
                                        + shadowGap g + j)) true
        else [])
    ++ grid_blits self BOARD_TILEMAP_WIDTH BOARD_TILEMAP_HEIGHT (getCell g)
         (fun i => BOARD_X + TILE_SIZE * i)
         (fun j => BOARD_Y + TILE_SIZE * j) false
    ++ grid_blits self TETROMINO_SIZE TETROMINO_SIZE
         (StcTetromino.cells (fallingBlock g))
         (fun i => BOARD_X
                   + TILE_SIZE * (StcTetromino.x (fallingBlock g) + i))
         (fun j => BOARD_Y
                   + TILE_SIZE * (StcTetromino.y (fallingBlock g) + j)) false
    ++ (if isPaused g then [] else hud_blits self g)
    ++ [onChangeProcessed; SDL_Flip (mScreen self); SDL_Delay SLEEP_TIME]
  /\ hud_blits self g <> []
  /\ (showShadow g = false \/ shadowGap g <= 0 ->
      STC_SHOW_GHOST_PIECE && (showShadow g && (shadowGap g >? 0)) = false).
Proof.
  intros Hchanged. split; [|split].
  - apply renderGame_changed. exact Hchanged.
  - apply hud_blits_not_empty.
  - intros [Hoff|Hgap].
    + rewrite Hoff. apply andb_false_r.
    + replace (shadowGap g >? 0) with false by (symmetry; lia).
      rewrite andb_false_r. apply andb_false_r.
Qed.

Lemma renderGame_order_witness :
  List.length (renderGame (GC := Sample.game_constants)
                          (PC := Sample.platform_constants)
                          (BS := Sample.switches)
                          (SV := Clipped.blitter) Sample.self Sample.changed)
  = 78%nat.
Proof.
  rewrite (proj1 (renderGame_order (GC := Sample.game_constants)
                    (PC := Sample.platform_constants)
                    (BS := Sample.switches)
                    (SV := Clipped.blitter) Sample.self Sample.changed
                    eq_refl)).
  reflexivity.
Defined.

(** ** [init] *)

(** C5, amended: [init] does its steps in the order of the contract (seed
    the generator from the clock, start video and audio, create the Surface,
    set the caption, decode the three atlases, open the mixer, load the
    music and the two effects, start the music loop) and stops at the first
    tested step that fails; a failed platform start, a failed Surface and a
    failed image load return three different statuses, none of them the
    status of success, and a failed mixer open returns the status of a
    failed platform start. *)
Theorem init_steps {PC : PlatformConstants}
    (env : Environment) (self : PlatformSdl) (game : pointer) :
  init_status env self game = classification (first_failure env)
  /\ init_calls env self game
     = firstn (steps_done (first_failure env)) (init_sequence env)
  /\ (classification (Some PlatformInit) <> classification (Some VideoSurface)
      /\ classification (Some PlatformInit) <> classification (Some ImageLoad)
      /\ classification (Some VideoSurface) <> classification (Some ImageLoad))
  /\ (forall step : InitStep,
        classification (Some step) <> classification None)
  /\ classification (Some MixerOpen) = classification (Some PlatformInit).
Proof.
  split; [|split; [|split; [|split]]].
  - unfold init_status, init, first_failure, init_body, Member.run,
      Member.bind, Member.call, Member.assign, Member.return_, Member.ret.
    cbn.
    destruct (SDL_Init_result env <? 0); [reflexivity|].
    destruct (is_NULL (SDL_SetVideoMode_result env)); [reflexivity|].
    destruct (is_NULL (IMG_Load_result env STC_BMP_TILE_BLOCKS)
              || is_NULL (IMG_Load_result env STC_BMP_BACKGROUND)
              || is_NULL (IMG_Load_result env STC_BMP_NUMBERS));
      [reflexivity|].
    destruct (negb (Mix_OpenAudio_result env =? 0)); reflexivity.
  - unfold init_calls, init, first_failure, init_body, Member.run,
      Member.bind, Member.call, Member.assign, Member.return_, Member.ret.
    cbn.
    destruct (SDL_Init_result env <? 0); [reflexivity|].
    destruct (is_NULL (SDL_SetVideoMode_result env)); [reflexivity|].
    destruct (is_NULL (IMG_Load_result env STC_BMP_TILE_BLOCKS)
              || is_NULL (IMG_Load_result env STC_BMP_BACKGROUND)
              || is_NULL (IMG_Load_result env STC_BMP_NUMBERS));
      [reflexivity|].
    destruct (negb (Mix_OpenAudio_result env =? 0)); reflexivity.
  - repeat split; discriminate.
  - intros []; discriminate.
  - reflexivity.
Qed.

(** C5, as stated, fails: a failed mixer open is not classified apart from
    the other failures; it returns the status of a failed [SDL_Init]. *)
Lemma init_steps_counterexample :
  first_failure (PC := Sample.platform_constants)
                Sample.machine_without_mixer = Some MixerOpen
  /\ first_failure (PC := Sample.platform_constants)
                   Sample.machine_without_sdl = Some PlatformInit
  /\ init_status (PC := Sample.platform_constants)
                 Sample.machine_without_mixer Sample.blank (Some 8%positive)
     = init_status (PC := Sample.platform_constants)
                   Sample.machine_without_sdl Sample.blank (Some 8%positive).
Proof. repeat split. Qed.

(** C4: on a machine where only the music file is missing, [init] does not
    return a failure: it returns [ERROR_NONE], leaves [mMusic] null and asks
    the mixer to play that null music. *)
Theorem init_missing_music :
  Mix_LoadMUS_result Sample.machine_without_music "stc_theme_loop.ogg" = NULL
  /\ first_failure (PC := Sample.platform_constants)
                   Sample.machine_without_music = None
  /\ init_status (PC := Sample.platform_constants)
                 Sample.machine_without_music Sample.blank (Some 8%positive)
     = ERROR_NONE
  /\ mMusic (init_members (PC := Sample.platform_constants)
               Sample.machine_without_music Sample.blank (Some 8%positive))
     = NULL
  /\ nth_error (init_calls (PC := Sample.platform_constants)
                  Sample.machine_without_music Sample.blank
                  (Some 8%positive)) 11
     = Some (Mix_PlayMusic NULL (-1)).
Proof. repeat split. Qed.

(** ** [processEvents] *)

(** C7: of the records drained by one [processEvents], a key-down of a key
    of the table gives exactly one START event, of the type the table
    binds it to (the quit signal and the escape key both give QUIT); a
    key-up of a key of left, right or down gives exactly one END event of
    that type; a record for a key outside the table gives no event; and the
    events come in the order of the records, so left-arrow down then up
    gives START(MOVE_LEFT), END(MOVE_LEFT). *)
Theorem processEvents_mapping {BS : BuildSwitches} :
  (forall (sym : SDL.Key) (e : EventType),
     In (sym, e) key_table ->
     processEvents [SDL.SDL_KEYDOWN sym] = [onEventStart e])
  /\ processEvents [SDL.SDL_QUIT] = [onEventStart EVENT_QUIT]
  /\ processEvents [SDL.SDL_KEYDOWN SDL.SDLK_ESCAPE]
     = [onEventStart EVENT_QUIT]
  /\ (forall (sym : SDL.Key) (e : EventType),
        In (sym, e) held_keys ->
        processEvents [SDL.SDL_KEYUP sym] = [onEventEnd e])
  /\ (forall sym : SDL.Key,
        ~ In sym (map fst key_table) ->
        processEvents [SDL.SDL_KEYDOWN sym] = []
        /\ processEvents [SDL.SDL_KEYUP sym] = [])
  /\ (forall queue : list SDL.Event,
        processEvents queue
        = flat_map (fun event => processEvents [event]) queue)
  /\ processEvents [SDL.SDL_KEYDOWN SDL.SDLK_LEFT;
                    SDL.SDL_KEYUP SDL.SDLK_LEFT]
     = [onEventStart EVENT_MOVE_LEFT; onEventEnd EVENT_MOVE_LEFT].
Proof.
  split; [|split; [|split; [|split; [|split; [|split]]]]].
  - intros sym e Hin. unfold key_table in Hin.
    apply in_app_or in Hin. destruct Hin as [Hin|Hin].
    + cbn in Hin.
      repeat (destruct Hin as [Hin|Hin];
              [inversion Hin; subst; reflexivity|]).
      contradiction.
    + destruct STC_SHOW_GHOST_PIECE eqn:Hghost; cbn in Hin;
        [|contradiction].
      destruct Hin as [Hin|[]]. inversion Hin; subst.
      cbn. rewrite Hghost. reflexivity.
  - reflexivity.
  - reflexivity.
  - intros sym e Hin. cbn in Hin.
    repeat (destruct Hin as [Hin|Hin];
            [inversion Hin; subst; reflexivity|]).
    contradiction.
  - intros sym Hout. unfold key_table in Hout.
    rewrite map_app, in_app_iff in Hout.
    destruct sym; cbn in Hout |- *;
      try (exfalso; apply Hout; left; tauto);
      try (split; reflexivity).
    destruct STC_SHOW_GHOST_PIECE; cbn in Hout |- *.
    + exfalso. apply Hout. right. left. reflexivity.
    + split; reflexivity.
  - induction queue as [|event queue IH].
    + reflexivity.
    + change (processEvents (event :: queue))
        with (on_event event ++ processEvents queue).
      change (flat_map (fun ev => processEvents [ev]) (event :: queue))
        with ((on_event event ++ [])
              ++ flat_map (fun ev => processEvents [ev]) queue).
      rewrite <- IH, app_nil_r. reflexivity.
  - reflexivity.
Qed.

Lemma processEvents_mapping_witness :
  processEvents (BS := Sample.switches) [SDL.SDL_KEYDOWN SDL.SDLK_F3]
  = [onEventStart EVENT_SHOW_SHADOW]
  /\ processEvents (BS := Sample.switches) [SDL.SDL_KEYUP SDL.SDLK_d]
     = [onEventEnd EVENT_MOVE_RIGHT]
  /\ processEvents (BS := Sample.switches)
                   [SDL.SDL_KEYDOWN (SDL.SDLK_other 113)]
     = [].
Proof.
  pose proof (processEvents_mapping (BS := Sample.switches))
    as (Hdown & _ & _ & Hup & Hout & _).
  split; [|split].
  - apply Hdown. cbn. tauto.
  - apply Hup. cbn. tauto.
  - apply Hout. cbn. intros Hin.
    repeat (destruct Hin as [Hin|Hin]; [discriminate Hin|]).
    exact Hin.
Defined.

Lemma init_steps_witness :
  init_status (PC := Sample.platform_constants)
              Sample.machine_without_mixer Sample.blank (Some 8%positive)
  = ERROR_PLATFORM
  /\ init_calls (PC := Sample.platform_constants)
                Sample.machine Sample.blank (Some 8%positive)
     = init_sequence (PC := Sample.platform_constants) Sample.machine.
Proof.
  split.
  - apply (proj1 (init_steps (PC := Sample.platform_constants)
                    Sample.machine_without_mixer Sample.blank
                    (Some 8%positive))).
  - apply (proj1 (proj2 (init_steps (PC := Sample.platform_constants)
                           Sample.machine Sample.blank (Some 8%positive)))).
Defined.

(** * Further properties *)

(** ** What a field of digits shows *)

Section Fields.

Context {PC : PlatformConstants} {SV : Blitter}.

Lemma glyph_digit_glyph (self : PlatformSdl)
    (x line color length k digit : Z) :
  0 < NUMBER_WIDTH -> 9 * NUMBER_WIDTH < 2 ^ 15 -> -9 <= digit <= 9 ->
  glyph_digit (glyph_blit_on self x line color length k digit) = digit.
Proof.
  intros Hpos Hfit Hdigit.
  unfold glyph_digit, glyph_blit_on, glyph_source. cbn [SDL.x].
  rewrite Sint16_id by (unfold C.in_Sint16; nia).
  rewrite Z.mul_comm. apply Z.div_mul. lia.
Qed.

Lemma digit_at_bound (number k : Z) : -9 <= digit_at number k <= 9.
Proof.
  unfold digit_at.
  pose proof (Z.rem_bound_abs (Z.quot number (10 ^ k)) 10 ltac:(lia)).
  lia.
Qed.

Lemma shown_glyphs (self : PlatformSdl) (x color length number : Z)
    (line : nat -> Z) :
  0 < NUMBER_WIDTH -> 9 * NUMBER_WIDTH < 2 ^ 15 ->
  forall n s : nat,
    shown_number
      (map (fun k : nat =>
              glyph_blit_on self x (line k) color length (Z.of_nat k)
                            (digit_at number (Z.of_nat k)))
           (seq s n))
    = Z.rem (Z.quot number (10 ^ Z.of_nat s)) (10 ^ Z.of_nat n).
Proof.
  intros Hpos Hfit. induction n as [|n IH]; intros s.
  - cbn [seq map shown_number fold_right]. change (10 ^ Z.of_nat 0) with 1.
    symmetry. apply Z.rem_1_r.
  - cbn [seq map]. unfold shown_number in *. cbn [fold_right].
    rewrite IH, glyph_digit_glyph by (try apply digit_at_bound; assumption).
    rewrite !Nat2Z.inj_succ, !Z.pow_succ_r by lia.
    assert (Hs : 10 ^ Z.of_nat s <> 0) by (apply Z.pow_nonzero; lia).
    assert (Hn : 10 ^ Z.of_nat n <> 0) by (apply Z.pow_nonzero; lia).
    rewrite Z.mod_mul_r by lia. unfold digit_at.
    rewrite Z.quot_quot by lia.
    rewrite (Z.mul_comm 10 (10 ^ Z.of_nat s)). reflexivity.
Qed.

End Fields.

(** X1: the digits [drawNumber] draws, read back from the columns of the
    digit atlas they are taken from, are those of the remainder of [number]
    by [10 ^ length]: a non-negative number that fits the field is shown as
    it is, and a wider one loses its high digits. *)
Theorem drawNumber_shows {PC : PlatformConstants}
    {SV : Blitter} (self : PlatformSdl) (x y number length color : Z) :
  0 < NUMBER_WIDTH -> 9 * NUMBER_WIDTH < 2 ^ 15 -> 1 <= length ->
  shown_number (drawNumber self x y number length color)
  = Z.rem number (10 ^ length)
  /\ (0 <= number ->
      shown_number (drawNumber self x y number length color)
      = number mod 10 ^ length)
  /\ (0 <= number < 10 ^ length ->
      shown_number (drawNumber self x y number length color) = number).
Proof.
  intros Hpos Hfit Hlen.
  assert (Hshown : shown_number (drawNumber self x y number length color)
                   = Z.rem number (10 ^ length)).
  { rewrite drawNumber_glyphs, shown_glyphs by assumption.
    change (10 ^ Z.of_nat 0) with 1. rewrite Z.quot_1_r.
    do 2 f_equal. lia. }
  assert (Hpow : 0 < 10 ^ length) by (apply Z.pow_pos_nonneg; lia).
  split; [exact Hshown|]. split.
  - intros Hn. rewrite Hshown. apply Z.rem_mod_nonneg; lia.
  - intros Hn. rewrite Hshown. apply Z.rem_small. exact Hn.
Qed.

Lemma drawNumber_shows_witness :
  shown_number (PC := Sample.platform_constants)
    (drawNumber (PC := Sample.platform_constants)
    (SV := Clipped.blitter)
                Sample.self 72 52 1234567 5 0)
  = 34567.
Proof.
  apply (proj1 (proj2
    (drawNumber_shows (PC := Sample.platform_constants)
    (SV := Clipped.blitter)
       Sample.self 72 52 1234567 5 0
       ltac:(cbn; lia) ltac:(cbn; lia) ltac:(lia)))).
  lia.
Defined.

(** X2: for a negative [number] the remainders of C++ are not positive, so
    every glyph is taken at a column that is zero or left of the digit
    atlas; the digits are those of the absolute value, negated. *)
Theorem drawNumber_negative {PC : PlatformConstants}
    {SV : Blitter} (self : PlatformSdl) (x y number length color : Z) :
  0 < NUMBER_WIDTH -> 9 * NUMBER_WIDTH < 2 ^ 15 -> number <= 0 ->
  Forall (fun r => match r with
                   | Some rect => SDL.x rect <= 0
                   | None => False
                   end)
         (source_rects (drawNumber self x y number length color))
  /\ (forall k : Z,
        0 <= k -> digit_at number k = - ((- number / 10 ^ k) mod 10))
  /\ map glyph_digit (drawNumber self x y number length color)
     = map (fun k : nat => - ((- number / 10 ^ Z.of_nat k) mod 10))
           (seq 0 (Z.to_nat (Z.max length 1))).
Proof.
  intros Hpos Hfit Hneg.
  assert (Hdigit : forall k : Z,
             0 <= k -> digit_at number k = - ((- number / 10 ^ k) mod 10)).
  { intros k Hk. rewrite <- digit_at_nonneg by lia. unfold digit_at.
    assert (10 ^ k <> 0) by (apply Z.pow_nonzero; lia).
    rewrite Z.quot_opp_l, Z.rem_opp_l by lia. lia. }
  split; [|split; [exact Hdigit|]].
  - rewrite drawNumber_glyphs. apply Forall_forall. intros r Hr.
    unfold source_rects in Hr. apply in_flat_map in Hr.
    destruct Hr as (c & Hc & Hr). apply in_map_iff in Hc.
    destruct Hc as (k & <- & _).
    unfold glyph_blit_on, glyph_source in Hr. cbn [In] in Hr.
    destruct Hr as [<-|[]].
    cbn [SDL.x]. rewrite Hdigit by lia.
    pose proof (Z.mod_pos_bound (- number / 10 ^ Z.of_nat k) 10 ltac:(lia)).
    rewrite Sint16_id by (unfold C.in_Sint16; nia). nia.
  - rewrite drawNumber_glyphs, map_map. apply map_ext. intros k.
    rewrite glyph_digit_glyph by (try apply digit_at_bound; assumption).
    apply Hdigit. lia.
Qed.

Lemma drawNumber_negative_witness :
  map (glyph_digit (PC := Sample.platform_constants))
      (drawNumber (PC := Sample.platform_constants)
      (SV := Clipped.blitter)
                  Sample.self 72 52 (-47) 3 0)
  = [-7; -4; 0].
Proof.
  apply (proj2 (proj2
    (drawNumber_negative (PC := Sample.platform_constants)
    (SV := Clipped.blitter)
       Sample.self 72 52 (-47) 3 0
       ltac:(cbn; lia) ltac:(cbn; lia) ltac:(lia)))).
Defined.

Lemma NoDup_map_injective_in {A B} (f : A -> B) (l : list A) :
  (forall a b, In a l -> In b l -> f a = f b -> a = b) ->
  NoDup l -> NoDup (map f l).
Proof.
  intros Hinj Hl. induction Hl as [|a l Ha _ IH]; cbn [map]; constructor.
  - rewrite in_map_iff. intros (b & Heq & Hb).
    apply Hinj in Heq; [subst b; exact (Ha Hb) | right; exact Hb | left; reflexivity].
  - apply IH. intros b c Hb Hc. apply Hinj; right; assumption.
Qed.

Lemma destinations_app (a b : Cmd) :
  destinations (a ++ b) = destinations a ++ destinations b.
Proof. unfold destinations. apply flat_map_app. Qed.




(** With the clipping of SDL 1.2 a field that starts above the screen is
    not drawn on one line: the first blit leaves line 0 in the rectangle,
    and the glyphs after it are blitted there. *)
Lemma drawNumber_line_moved :
  lines_of (drawNumber (PC := Sample.platform_constants)
                       (SV := Clipped.blitter)
                       Sample.self 108 (-3) 125 3 0)
  = [Some (-3); Some 0; Some 0].
Proof. reflexivity. Qed.

(** ** The tile atlas *)

(** X4: on the 16-bit coordinates, [drawTile] takes different tiles and
    different modes from different rectangles of the atlas; the rectangles
    of two neighbouring tiles are [TILE_SIZE] apart and [TILE_SIZE + 1]
    wide, so they share one column of pixels. *)
Theorem drawTile_atlas {PC : PlatformConstants}
    (self : PlatformSdl) (x y x' y' tile tile' : Z) (shadow shadow' : bool) :
  0 < TILE_SIZE -> TILE_SIZE + 1 < 2 ^ 15 ->
  C.in_Sint16 (TILE_SIZE * tile) -> C.in_Sint16 (TILE_SIZE * tile') ->
  (source_rects (drawTile self x y tile shadow)
   = source_rects (drawTile self x' y' tile' shadow')
   -> tile = tile' /\ shadow = shadow')
  /\ (tile' = tile + 1 ->
      source_rects (drawTile self x y tile shadow)
      = [Some {| SDL.x := TILE_SIZE * tile;
                 SDL.y := if shadow then TILE_SIZE + 1 else 0;
                 SDL.w := TILE_SIZE + 1; SDL.h := TILE_SIZE + 1 |}]
      /\ source_rects (drawTile self x' y' tile' shadow)
         = [Some {| SDL.x := TILE_SIZE * tile + (TILE_SIZE + 1) - 1;
                    SDL.y := if shadow then TILE_SIZE + 1 else 0;
                    SDL.w := TILE_SIZE + 1; SDL.h := TILE_SIZE + 1 |}]).
Proof.
  intros Hpos Hfit Htile Htile'.
  assert (Hrect : forall (px py t : Z) (s : bool),
             C.in_Sint16 (TILE_SIZE * t) ->
             source_rects (drawTile self px py t s)
             = [Some {| SDL.x := TILE_SIZE * t;
                        SDL.y := if s then TILE_SIZE + 1 else 0;
                        SDL.w := TILE_SIZE + 1; SDL.h := TILE_SIZE + 1 |}]).
  { intros px py t s Ht. unfold drawTile, source_rects. cbn [flat_map app].
    rewrite Uint16_id, (Sint16_id (TILE_SIZE * t)) by (try exact Ht; lia).
    do 3 f_equal. destruct s;
      [rewrite Z.mul_1_r | rewrite Z.mul_0_r];
      apply Sint16_id; unfold C.in_Sint16; lia. }
  split.
  - rewrite !Hrect by assumption. intros Heq. inversion Heq as [[Hx Hy]].
    split; [nia|]. destruct shadow, shadow'; try reflexivity; lia.
  - intros ->. rewrite !Hrect by assumption. split; [reflexivity|].
    do 3 f_equal. lia.
Qed.

Lemma drawTile_atlas_witness :
  source_rects (drawTile (PC := Sample.platform_constants)
                         Sample.self 12 0 4 true)
  = [Some {| SDL.x := 48; SDL.y := 13; SDL.w := 13; SDL.h := 13 |}].
Proof.
  apply (proj2 (proj2
    (drawTile_atlas (PC := Sample.platform_constants)
       Sample.self 0 0 12 0 3 4 true true
       ltac:(cbn; lia) ltac:(cbn; lia)
       ltac:(unfold C.in_Sint16; cbn; lia)
       ltac:(unfold C.in_Sint16; cbn; lia)) eq_refl)).
Defined.

(** ** Frames *)

Lemma length_range (n : Z) : List.length (range n) = Z.to_nat n.
Proof. unfold range. rewrite length_map, length_seq. reflexivity. Qed.

Lemma length_grid (cols rows : Z) :
  List.length (grid cols rows) = (Z.to_nat cols * Z.to_nat rows)%nat.
Proof.
  unfold grid.
  rewrite (flat_map_constant_length (c := Z.to_nat rows)).
  - rewrite length_range. reflexivity.
  - intros i _. rewrite length_map. apply length_range.
Qed.

Lemma count_flat_map {A} (p : Call -> bool) (f : A -> Cmd) (l : list A) :
  count p (flat_map f l) = list_sum (map (fun a => count p (f a)) l).
Proof.
  induction l as [|a l IH]; [reflexivity|].
  cbn [flat_map map list_sum]. rewrite count_app, IH. reflexivity.
Qed.

Lemma delays_app (a b : Cmd) : delays (a ++ b) = delays a ++ delays b.
Proof. unfold delays. apply flat_map_app. Qed.

Lemma delays_blits (blits : Cmd) :
  Forall (fun c => is_blit c = true) blits -> delays blits = [].
Proof.
  induction 1 as [|c l Hc _ IH]; [reflexivity|].
  destruct c; try discriminate Hc. exact IH.
Qed.

Lemma pointer_eqb_refl (p : pointer) : pointer_eqb p p = true.
Proof. destruct p as [a|]; [apply Pos.eqb_refl | reflexivity]. Qed.

Section Frames.

Context {GC : GameConstants} {PC : PlatformConstants} {BS : BuildSwitches}
        {SV : Blitter}.

Lemma occupied_count (self : PlatformSdl) (cols rows : Z)
    (cell : Z -> Z -> Z) (px py : Z -> Z) (ghost : bool) :
  count is_blit (grid_blits self cols rows cell px py ghost)
  = List.length (occupied cols rows cell).
Proof. apply grid_blits_count. Qed.

Lemma occupied_le (cols rows : Z) (cell : Z -> Z -> Z) :
  (List.length (occupied cols rows cell)
   <= Z.to_nat cols * Z.to_nat rows)%nat.
Proof.
  unfold occupied. rewrite <- length_grid. apply filter_length_le.
Qed.

Lemma hud_blits_count (self : PlatformSdl) (g : Game) :
  count is_blit (hud_blits self g) = hud_glyphs g.
Proof.
  unfold hud_blits, hud_glyphs. rewrite count_flat_map. f_equal.
  apply map_ext. intros [[[[x y] number] length] color].
  rewrite count_all by apply drawNumber_blits. apply drawNumber_length.
Qed.

(** One invocation, by the calls that are not blits. *)
Lemma renderGame_one (self : PlatformSdl) (g : Game) :
  count is_flip (renderGame self g) = (if hasChanged g then 1 else 0)%nat
  /\ count is_onChangeProcessed (renderGame self g)
     = (if hasChanged g then 1 else 0)%nat
  /\ delays (renderGame self g) = [SLEEP_TIME]
  /\ ((if hasChanged g then 1 else 0) <= count is_blit (renderGame self g))%nat.
Proof.
  destruct (hasChanged g) eqn:Hchanged.
  - destruct (renderGame_changed_blits self g Hchanged) as (blits & Hb & Heq).
    assert (Hno : forall p : Call -> bool,
               (forall c, is_blit c = true -> p c = false) ->
               count p blits = 0%nat).
    { intros p Hp. apply count_none. apply (Forall_impl _ Hp). exact Hb. }
    split; [|split; [|split]].
    + rewrite Heq, count_app.
      rewrite Hno by (intros [] Hc; try discriminate; reflexivity).
      reflexivity.
    + rewrite Heq, count_app.
      rewrite Hno by (intros [] Hc; try discriminate; reflexivity).
      reflexivity.
    + rewrite Heq, delays_app, delays_blits by exact Hb. reflexivity.
    + rewrite (renderGame_changed self g Hchanged), count_app.
      cbn. lia.
  - rewrite (renderGame_unchanged self g Hchanged).
    repeat split. cbn. lia.
Qed.

Lemma atlas_to_screen_grid (self : PlatformSdl) (cols rows : Z)
    (cell : Z -> Z -> Z) (px py : Z -> Z) (ghost : bool) :
  Forall (atlas_to_screen self) (grid_blits self cols rows cell px py ghost).
Proof.
  unfold grid_blits. apply Forall_flat_map_all. intros ij.
  unfold cell_blits. destruct (_ =? _); [constructor|].
  constructor; [cbn; tauto | constructor].
Qed.

Lemma atlas_to_screen_hud (self : PlatformSdl) (g : Game) :
  Forall (atlas_to_screen self) (hud_blits self g).
Proof.
  unfold hud_blits. apply Forall_flat_map_all.
  intros [[[[x y] number] length] color]. rewrite drawNumber_glyphs.
  apply Forall_forall. intros c Hc. apply in_map_iff in Hc.
  destruct Hc as (k & <- & _). cbn. tauto.
Qed.

Lemma atlas_to_screen_frame (self : PlatformSdl) (g : Game) :
  Forall (atlas_to_screen self) (renderGame self g).
Proof.
  destruct (hasChanged g) eqn:Hchanged.
  - rewrite (renderGame_changed self g Hchanged).
    repeat (apply Forall_app; split).
    + constructor; [cbn; tauto | constructor].
    + destruct (showPreview g); [apply atlas_to_screen_grid | constructor].
    + destruct (STC_SHOW_GHOST_PIECE && _);
        [apply atlas_to_screen_grid | constructor].
    + apply atlas_to_screen_grid.
    + apply atlas_to_screen_grid.
    + destruct (isPaused g); [constructor | apply atlas_to_screen_hud].
    + repeat (constructor; [exact I|]). constructor.
  - rewrite (renderGame_unchanged self g Hchanged).
    constructor; [exact I | constructor].
Qed.

End Frames.

(** X5: the blits of a frame are counted by the state it draws: one for
    the background, one for each occupied cell of every pass that runs (the
    ghost pass having as many as the falling piece), and the glyphs of the
    HUD unless the game is paused; so a frame never issues more than
    [1 + 3 * TETROMINO_SIZE^2 + BOARD_TILEMAP_WIDTH * BOARD_TILEMAP_HEIGHT]
    blits and the HUD's glyphs. *)
Theorem renderGame_blit_count {GC : GameConstants} {PC : PlatformConstants}
    {SV : Blitter} {BS : BuildSwitches} (self : PlatformSdl) (g : Game) :
  hasChanged g = true ->
  count is_blit (renderGame self g)
  = (1
     + (if showPreview g
        then List.length (occupied TETROMINO_SIZE TETROMINO_SIZE
                            (StcTetromino.cells (nextBlock g)))
        else 0)
     + (if STC_SHOW_GHOST_PIECE && (showShadow g && (shadowGap g >? 0))
        then List.length (occupied TETROMINO_SIZE TETROMINO_SIZE
                            (StcTetromino.cells (fallingBlock g)))
        else 0)
     + List.length (occupied BOARD_TILEMAP_WIDTH BOARD_TILEMAP_HEIGHT
                      (getCell g))
     + List.length (occupied TETROMINO_SIZE TETROMINO_SIZE
                      (StcTetromino.cells (fallingBlock g)))
     + (if isPaused g then 0 else hud_glyphs g))%nat
  /\ (count is_blit (renderGame self g)
      <= 1 + 3 * (Z.to_nat TETROMINO_SIZE * Z.to_nat TETROMINO_SIZE)
         + Z.to_nat BOARD_TILEMAP_WIDTH * Z.to_nat BOARD_TILEMAP_HEIGHT
         + hud_glyphs g)%nat.
Proof.
  intros Hchanged.
  assert (Hcount : count is_blit (renderGame self g)
    = (1
       + (if showPreview g
          then List.length (occupied TETROMINO_SIZE TETROMINO_SIZE
                              (StcTetromino.cells (nextBlock g)))
          else 0)
       + (if STC_SHOW_GHOST_PIECE && (showShadow g && (shadowGap g >? 0))
          then List.length (occupied TETROMINO_SIZE TETROMINO_SIZE
                              (StcTetromino.cells (fallingBlock g)))
          else 0)
       + List.length (occupied BOARD_TILEMAP_WIDTH BOARD_TILEMAP_HEIGHT
                        (getCell g))
       + List.length (occupied TETROMINO_SIZE TETROMINO_SIZE
                        (StcTetromino.cells (fallingBlock g)))
       + (if isPaused g then 0 else hud_glyphs g))%nat).
  { rewrite (renderGame_changed self g Hchanged), !count_app.
    rewrite !occupied_count.
    replace (count is_blit
               (if showPreview g
                then grid_blits self TETROMINO_SIZE TETROMINO_SIZE
                       (StcTetromino.cells (nextBlock g))
                       (fun i => PREVIEW_X + TILE_SIZE * i)
                       (fun j => PREVIEW_Y + TILE_SIZE * j) false
                else []))
      with (if showPreview g
            then List.length (occupied TETROMINO_SIZE TETROMINO_SIZE
                                (StcTetromino.cells (nextBlock g)))
            else 0%nat)
      by (destruct (showPreview g);
          [rewrite occupied_count|]; reflexivity).
    destruct (STC_SHOW_GHOST_PIECE && (showShadow g && (shadowGap g >? 0)));
      destruct (isPaused g);
      rewrite ?occupied_count, ?hud_blits_count; cbn; lia. }
  split; [exact Hcount|]. rewrite Hcount.
  pose proof (occupied_le TETROMINO_SIZE TETROMINO_SIZE
                (StcTetromino.cells (nextBlock g))).
  pose proof (occupied_le TETROMINO_SIZE TETROMINO_SIZE
                (StcTetromino.cells (fallingBlock g))).
  pose proof (occupied_le BOARD_TILEMAP_WIDTH BOARD_TILEMAP_HEIGHT
                (getCell g)).
  destruct (showPreview g),
    (STC_SHOW_GHOST_PIECE && (showShadow g && (shadowGap g >? 0))),
    (isPaused g); lia.
Qed.

Lemma renderGame_blit_count_witness :
  count is_blit (renderGame (GC := Sample.game_constants)
                            (PC := Sample.platform_constants)
                            (BS := Sample.switches)
                            (SV := Clipped.blitter)
                            Sample.self Sample.changed)
  = 75%nat.
Proof.
  rewrite (proj1 (renderGame_blit_count (GC := Sample.game_constants)
                    (PC := Sample.platform_constants)
                    (BS := Sample.switches)
                    (SV := Clipped.blitter) Sample.self Sample.changed
                    eq_refl)).
  reflexivity.
Defined.

(** X6: over any run of the loop, whatever the engine reports in each
    iteration, the buffers are flipped and the engine is acknowledged once
    for each iteration that reports a change and never otherwise, every
    iteration sleeps [SLEEP_TIME] once, and each reported change costs at
    least one blit. *)
Theorem renderGame_accounting {GC : GameConstants} {PC : PlatformConstants}
    {SV : Blitter} {BS : BuildSwitches}
    (self : PlatformSdl) (iterations : list Game) :
  count is_flip (flat_map (renderGame self) iterations)
  = changed_count iterations
  /\ count is_onChangeProcessed (flat_map (renderGame self) iterations)
     = changed_count iterations
  /\ delays (flat_map (renderGame self) iterations)
     = repeat SLEEP_TIME (List.length iterations)
  /\ (changed_count iterations
      <= count is_blit (flat_map (renderGame self) iterations))%nat.
Proof.
  unfold changed_count.
  induction iterations as [|g gs (Hflip & Hack & Hdelay & Hblit)].
  - repeat split. cbn. lia.
  - destruct (renderGame_one self g) as (Hf & Ha & Hd & Hb).
    cbn [flat_map filter List.length repeat].
    rewrite !count_app, delays_app, Hf, Ha, Hd, Hflip, Hack, Hdelay.
    destruct (hasChanged g); cbn [List.length]; repeat split; cbn; lia.
Qed.

Lemma perform_blits (self : PlatformSdl) (blits : Cmd) :
  Forall (fun c => is_blit c = true) blits ->
  Forall (atlas_to_screen self) blits ->
  forall s : Surface,
    presented (perform_all (mScreen self) s blits) = presented s
    /\ List.length (received (perform_all (mScreen self) s blits))
       = (List.length (received s) + List.length blits)%nat.
Proof.
  induction 1 as [|c l Hc _ IH]; intros Haim s.
  - cbn. split; [reflexivity | lia].
  - inversion Haim as [|c' l' Hhead Htail]; subst.
    destruct c; try discriminate Hc. destruct Hhead as [-> _].
    unfold perform_all in *. cbn [fold_left perform].
    rewrite pointer_eqb_refl.
    destruct (IH Htail
                {| received := (src, srcrect, dstrect) :: received s;
                   presented := presented s |}) as [Hp Hr].
    rewrite Hp, Hr. cbn. split; [reflexivity | lia].
Qed.

(** X7: every blit of [renderGame] writes the screen and reads one of the
    three atlases, so an atlas that is another surface than the screen is
    never drawn on; on the Surface, an invocation adds its blits and, if
    the engine reported a change, presents once. *)
Theorem renderGame_surfaces {GC : GameConstants} {PC : PlatformConstants}
    {SV : Blitter} {BS : BuildSwitches} (self : PlatformSdl) (g : Game) :
  Forall (fun dst => dst = mScreen self) (targets (renderGame self g))
  /\ Forall (fun src => src = mBmpBack self \/ src = mBmpTiles self
                        \/ src = mBmpNumbers self)
            (sources (renderGame self g))
  /\ (forall atlas : pointer,
        In atlas [mBmpBack self; mBmpTiles self; mBmpNumbers self] ->
        atlas <> mScreen self ->
        ~ In atlas (targets (renderGame self g)))
  /\ forall s : Surface,
       presented (perform_all (mScreen self) s (renderGame self g))
       = (presented s + (if hasChanged g then 1 else 0))%nat
       /\ List.length (received (perform_all (mScreen self) s
                                             (renderGame self g)))
          = (List.length (received s)
             + count is_blit (renderGame self g))%nat.
Proof.
  pose proof (atlas_to_screen_frame self g) as Haim.
  assert (Htargets : Forall (fun dst => dst = mScreen self)
                            (targets (renderGame self g))).
  { apply Forall_forall. intros p Hp. unfold targets in Hp.
    apply in_flat_map in Hp. destruct Hp as (c & Hc & Hp).
    apply (proj1 (Forall_forall _ _) Haim) in Hc.
    destruct c; try contradiction. destruct Hp as [<-|[]]. apply Hc. }
  split; [exact Htargets|]. split; [|split].
  - apply Forall_forall. intros p Hp. unfold sources in Hp.
    apply in_flat_map in Hp. destruct Hp as (c & Hc & Hp).
    apply (proj1 (Forall_forall _ _) Haim) in Hc.
    destruct c; try contradiction. destruct Hp as [<-|[]]. apply Hc.
  - intros atlas _ Hother Hin.
    apply (proj1 (Forall_forall _ _) Htargets) in Hin.
    exact (Hother Hin).
  - intros s. destruct (hasChanged g) eqn:Hchanged.
    + destruct (renderGame_changed_blits self g Hchanged)
        as (blits & Hb & Heq).
      rewrite Heq in Haim |- *. apply Forall_app in Haim.
      destruct (perform_blits self blits Hb (proj1 Haim) s) as [Hp Hr].
      rewrite perform_all_app, count_app, (count_all _ _ Hb).
      unfold perform_all at 1 3. cbn [fold_left perform].
      rewrite pointer_eqb_refl. cbn [presented received].
      rewrite Hp, Hr. cbn. split; lia.
    + rewrite (renderGame_unchanged self g Hchanged). cbn. split; lia.
Qed.

Lemma renderGame_surfaces_witness :
  ~ In (Some 2%positive)
       (targets (renderGame (GC := Sample.game_constants)
                            (PC := Sample.platform_constants)
                            (BS := Sample.switches)
                            (SV := Clipped.blitter)
                            Sample.self Sample.changed)).
Proof.
  apply (proj1 (proj2 (proj2
    (renderGame_surfaces (GC := Sample.game_constants)
       (PC := Sample.platform_constants) (SV := Clipped.blitter)
       (BS := Sample.switches) Sample.self Sample.changed)))
    (Some 2%positive)).
  - right. left. reflexivity.
  - discriminate.
Defined.

Lemma sources_app (a b : Cmd) : sources (a ++ b) = sources a ++ sources b.
Proof. unfold sources. apply flat_map_app. Qed.

Section Atlases.

Context {GC : GameConstants} {PC : PlatformConstants} {SV : Blitter}.

Lemma sources_grid (self : PlatformSdl) (cols rows : Z)
    (cell : Z -> Z -> Z) (px py : Z -> Z) (ghost : bool) :
  Forall (fun src => src = mBmpTiles self)
         (sources (grid_blits self cols rows cell px py ghost)).
Proof.
  unfold grid_blits. induction (grid cols rows) as [|ij l IH].
  - constructor.
  - cbn [flat_map]. rewrite sources_app. apply Forall_app. split; [|exact IH].
    unfold cell_blits. destruct (_ =? _); repeat constructor.
Qed.

Lemma sources_hud (self : PlatformSdl) (g : Game) :
  In (mBmpNumbers self) (sources (hud_blits self g)).
Proof.
  unfold hud_blits, hud_fields. cbn [flat_map]. rewrite sources_app.
  apply in_or_app. left. rewrite drawNumber_glyphs.
  replace (Z.to_nat (Z.max LEVEL_LENGTH 1))
    with (S (Z.to_nat (Z.max LEVEL_LENGTH 1) - 1)) by lia.
  left. reflexivity.
Qed.

Lemma destinations_grid (self : PlatformSdl) (cols rows : Z)
    (cell : Z -> Z -> Z) (px py : Z -> Z) (ghost : bool) :
  destinations (grid_blits self cols rows cell px py ghost)
  = map (fun ij => Some {| SDL.dx := C.Sint16 (px (fst ij));
                           SDL.dy := C.Sint16 (py (snd ij)) |})
        (occupied cols rows cell).
Proof.
  unfold grid_blits, occupied. induction (grid cols rows) as [|ij l IH].
  - reflexivity.
  - cbn [flat_map filter]. rewrite destinations_app, IH.
    unfold cell_blits. destruct (_ =? _); reflexivity.
Qed.

Lemma columns_grid (self : PlatformSdl) (cols rows : Z)
    (cell : Z -> Z -> Z) (px py : Z -> Z) (ghost : bool) :
  columns (grid_blits self cols rows cell px py ghost)
  = map (fun ij => Some (C.Sint16 (TILE_SIZE * cell (fst ij) (snd ij))))
        (occupied cols rows cell).
Proof.
  unfold columns, source_rects, grid_blits, occupied.
  induction (grid cols rows) as [|ij l IH].
  - reflexivity.
  - cbn [flat_map filter]. rewrite flat_map_app, map_app, IH.
    unfold cell_blits. destruct (_ =? _); reflexivity.
Qed.

Lemma In_occupied (cols rows : Z) (cell : Z -> Z -> Z) (i j : Z) :
  In (i, j) (occupied cols rows cell) ->
  0 <= i < cols /\ 0 <= j < rows.
Proof.
  unfold occupied. intros Hin. apply filter_In in Hin.
  apply In_grid. apply Hin.
Qed.

End Atlases.

(** X8: in a frame the digit atlas is read if and only if the game is not
    paused (the atlases being different surfaces): a paused frame draws no
    numeral at all. *)
Theorem renderGame_numerals {GC : GameConstants} {PC : PlatformConstants}
    {SV : Blitter} {BS : BuildSwitches} (self : PlatformSdl) (g : Game) :
  hasChanged g = true ->
  mBmpNumbers self <> mBmpTiles self ->
  mBmpNumbers self <> mBmpBack self ->
  (In (mBmpNumbers self) (sources (renderGame self g))
   <-> isPaused g = false).
Proof.
  intros Hchanged Htiles Hback.
  rewrite (renderGame_changed self g Hchanged), !sources_app.
  assert (Hgrid : forall cols rows cell px py ghost,
             ~ In (mBmpNumbers self)
                  (sources (grid_blits self cols rows cell px py ghost))).
  { intros cols rows cell px py ghost Hin.
    apply (proj1 (Forall_forall _ _)
                 (sources_grid self cols rows cell px py ghost)) in Hin.
    exact (Htiles Hin). }
  split.
  - intros Hin. destruct (isPaused g); [|reflexivity]. exfalso.
    apply in_app_or in Hin. destruct Hin as [Hin|Hin].
    { destruct Hin as [Hin|[]]. exact (Hback (eq_sym Hin)). }
    apply in_app_or in Hin. destruct Hin as [Hin|Hin].
    { destruct (showPreview g); [exact (Hgrid _ _ _ _ _ _ Hin) | exact Hin]. }
    apply in_app_or in Hin. destruct Hin as [Hin|Hin].
    { destruct (STC_SHOW_GHOST_PIECE && _);
        [exact (Hgrid _ _ _ _ _ _ Hin) | exact Hin]. }
    apply in_app_or in Hin. destruct Hin as [Hin|Hin].
    { exact (Hgrid _ _ _ _ _ _ Hin). }
    apply in_app_or in Hin. destruct Hin as [Hin|Hin].
    { exact (Hgrid _ _ _ _ _ _ Hin). }
    apply in_app_or in Hin. destruct Hin as [Hin|Hin]; exact Hin.
  - intros ->. do 5 (apply in_or_app; right). apply in_or_app. left.
    apply sources_hud.
Qed.

Lemma renderGame_numerals_witness :
  In (Some 4%positive)
     (sources (renderGame (GC := Sample.game_constants)
                          (PC := Sample.platform_constants)
                          (BS := Sample.switches)
                          (SV := Clipped.blitter)
                          Sample.self Sample.changed)).
Proof.
  apply (renderGame_numerals (GC := Sample.game_constants)
           (PC := Sample.platform_constants) (BS := Sample.switches)
           (SV := Clipped.blitter)
           Sample.self Sample.changed eq_refl
           ltac:(discriminate) ltac:(discriminate)).
  reflexivity.
Defined.

(** X9: when the tile has a size and the board lies on the 16-bit
    coordinates, the board pass draws no two cells at the same place: each
    occupied cell [(i, j)] has its own destination
    [(BOARD_X + TILE_SIZE * i, BOARD_Y + TILE_SIZE * j)]. *)
Theorem renderGame_board_places {GC : GameConstants}
    {PC : PlatformConstants} (self : PlatformSdl) (g : Game) :
  TILE_SIZE <> 0 ->
  (forall i, 0 <= i < BOARD_TILEMAP_WIDTH ->
             C.in_Sint16 (BOARD_X + TILE_SIZE * i)) ->
  (forall j, 0 <= j < BOARD_TILEMAP_HEIGHT ->
             C.in_Sint16 (BOARD_Y + TILE_SIZE * j)) ->
  destinations (renderGame_board self g)
  = map (fun ij => Some {| SDL.dx := BOARD_X + TILE_SIZE * fst ij;
                           SDL.dy := BOARD_Y + TILE_SIZE * snd ij |})
        (occupied BOARD_TILEMAP_WIDTH BOARD_TILEMAP_HEIGHT (getCell g))
  /\ NoDup (destinations (renderGame_board self g)).
Proof.
  intros Hsize Hcols Hrows.
  assert (Hdst : destinations (renderGame_board self g)
    = map (fun ij => Some {| SDL.dx := BOARD_X + TILE_SIZE * fst ij;
                             SDL.dy := BOARD_Y + TILE_SIZE * snd ij |})
          (occupied BOARD_TILEMAP_WIDTH BOARD_TILEMAP_HEIGHT (getCell g))).
  { rewrite board_pass, destinations_grid. apply map_ext_in.
    intros [i j] Hin. apply In_occupied in Hin. cbn [fst snd].
    rewrite !Sint16_id by (try apply Hcols; try apply Hrows; tauto).
    reflexivity. }
  split; [exact Hdst|]. rewrite Hdst.
  apply NoDup_map_injective_in.
  - intros [i j] [i' j'] _ _ Heq. cbn [fst snd] in Heq.
    inversion Heq as [[Hi Hj]]. f_equal; nia.
  - unfold occupied. apply NoDup_filter. apply NoDup_grid.
Qed.

Lemma renderGame_board_places_witness :
  destinations (renderGame_board (GC := Sample.game_constants)
                                 (PC := Sample.platform_constants)
                                 Sample.self Sample.changed)
  = [Some {| SDL.dx := 180; SDL.dy := 256 |}].
Proof.
  rewrite (proj1 (renderGame_board_places (GC := Sample.game_constants)
                    (PC := Sample.platform_constants)
                    Sample.self Sample.changed
                    ltac:(discriminate)
                    ltac:(intros i Hi; change (0 <= i < 10) in Hi;
                          change (- 2 ^ 15 <= 180 + 12 * i < 2 ^ 15); lia)
                    ltac:(intros j Hj; change (0 <= j < 22) in Hj;
                          change (- 2 ^ 15 <= 4 + 12 * j < 2 ^ 15); lia))).
  reflexivity.
Defined.

(** X10: the ghost is the falling piece moved down: on the 16-bit
    coordinates the ghost pass blits the same tiles, from the same columns
    of the atlas and in the same order, as the pass of the falling piece,
    each [TILE_SIZE * shadowGap()] pixels lower. *)
Theorem renderGame_shadow_follows {GC : GameConstants}
    {PC : PlatformConstants} (self : PlatformSdl) (g : Game) :
  (forall j, 0 <= j < TETROMINO_SIZE ->
     C.in_Sint16 (BOARD_Y + TILE_SIZE
                            * (StcTetromino.y (fallingBlock g) + j))
     /\ C.in_Sint16 (BOARD_Y + TILE_SIZE
                               * (StcTetromino.y (fallingBlock g)
                                  + shadowGap g + j))) ->
  destinations (renderGame_shadow self g)
  = map (lowered (TILE_SIZE * shadowGap g))
        (destinations (renderGame_falling self g))
  /\ columns (renderGame_shadow self g)
     = columns (renderGame_falling self g)
  /\ count is_blit (renderGame_shadow self g)
     = count is_blit (renderGame_falling self g).
Proof.
  intros Hrows. rewrite shadow_pass, falling_pass. split; [|split].
  - rewrite !destinations_grid, map_map. apply map_ext_in.
    intros [i j] Hin. apply In_occupied in Hin. cbn [fst snd].
    destruct (Hrows j (proj2 Hin)) as [Hfall Hghost].
    unfold lowered. cbn [option_map SDL.dx SDL.dy].
    rewrite (Sint16_id _ Hfall), (Sint16_id _ Hghost).
    do 2 f_equal. ring.
  - rewrite !columns_grid. reflexivity.
  - rewrite !grid_blits_count. reflexivity.
Qed.

Lemma renderGame_shadow_follows_witness :
  destinations (renderGame_shadow (GC := Sample.game_constants)
                                  (PC := Sample.platform_constants)
                                  Sample.self Sample.changed)
  = map (lowered 180)
        (destinations (renderGame_falling (GC := Sample.game_constants)
                                          (PC := Sample.platform_constants)
                                          Sample.self Sample.changed)).
Proof.
  apply (proj1 (renderGame_shadow_follows (GC := Sample.game_constants)
                  (PC := Sample.platform_constants)
                  Sample.self Sample.changed
                  ltac:(intros j Hj; change (0 <= j < 4) in Hj;
                        change ((- 2 ^ 15 <= 4 + 12 * (5 + j) < 2 ^ 15)
                                /\ (- 2 ^ 15 <= 4 + 12 * (5 + 15 + j)
                                    < 2 ^ 15)); lia))).
Defined.

(** ** Events *)

Section Events.

Context {BS : BuildSwitches}.

Lemma processEvents_flat_map (queue : list SDL.Event) :
  processEvents queue = flat_map on_event queue.
Proof.
  induction queue as [|event queue IH]; [reflexivity|].
  cbn [processEvents flat_map]. rewrite IH. reflexivity.
Qed.

Lemma key_table_down (sym : SDL.Key) (e : EventType) :
  In (sym, e) key_table -> on_SDL_KEYDOWN sym = [onEventStart e].
Proof.
  unfold key_table. intros Hin. apply in_app_or in Hin.
  destruct Hin as [Hin|Hin].
  - cbn in Hin.
    repeat (destruct Hin as [Hin|Hin];
            [inversion Hin; subst; reflexivity|]).
    contradiction.
  - destruct STC_SHOW_GHOST_PIECE eqn:Hghost; [|contradiction].
    destruct Hin as [Hin|[]]. inversion Hin; subst.
    cbn. rewrite Hghost. reflexivity.
Qed.

Lemma on_SDL_KEYDOWN_inv (sym : SDL.Key) (c : Call) :
  In c (on_SDL_KEYDOWN sym) ->
  exists e, c = onEventStart e /\ In (sym, e) key_table.
Proof.
  unfold key_table.
  destruct sym; cbn [on_SDL_KEYDOWN]; try contradiction;
    try (intros [<-|[]]; eexists; split; [reflexivity|];
         apply in_or_app; left; cbn; tauto).
  destruct STC_SHOW_GHOST_PIECE; [|contradiction].
  intros [<-|[]]. eexists. split; [reflexivity|].
  apply in_or_app. right. left. reflexivity.
Qed.

Lemma key_table_up (sym : SDL.Key) (e : EventType) :
  In (sym, e) key_table ->
  held_event e = true \/ (e = EVENT_ROTATE_CW /\ STC_AUTO_ROTATION = true) ->
  on_SDL_KEYUP sym = [onEventEnd e].
Proof.
  unfold key_table. intros Hin Hheld. apply in_app_or in Hin.
  destruct Hin as [Hin|Hin].
  - cbn in Hin.
    repeat (destruct Hin as [Hin|Hin];
            [inversion Hin; subst;
             destruct Hheld as [Hheld|[Hrot Hauto]];
             try discriminate; cbn; try rewrite Hauto; reflexivity|]).
    contradiction.
  - destruct STC_SHOW_GHOST_PIECE; [|contradiction].
    destruct Hin as [Hin|[]]. inversion Hin; subst.
    destruct Hheld as [Hheld|[Hrot _]]; discriminate.
Qed.

Lemma on_SDL_KEYUP_inv (sym : SDL.Key) (c : Call) :
  In c (on_SDL_KEYUP sym) ->
  exists e, c = onEventEnd e /\ In (sym, e) key_table
            /\ (held_event e = true
                \/ (e = EVENT_ROTATE_CW /\ STC_AUTO_ROTATION = true)).
Proof.
  unfold key_table.
  destruct sym; cbn [on_SDL_KEYUP]; try contradiction;
    try (intros [<-|[]]; eexists; split; [reflexivity|]; split;
         [apply in_or_app; left; cbn; tauto | left; reflexivity]);
    (destruct STC_AUTO_ROTATION; [|contradiction];
     intros [<-|[]]; eexists; split; [reflexivity|]; split;
     [apply in_or_app; left; cbn; tauto | right; split; reflexivity]).
Qed.

Lemma on_event_with_arrows (event : SDL.Event) :
  on_event (with_arrows event) = on_event event.
Proof. destruct event as [|sym|sym|type]; try destruct sym; reflexivity. Qed.

Lemma on_event_bounded (event : SDL.Event) :
  (List.length (on_event event) <= 1)%nat
  /\ Forall (fun c => is_event c = true) (on_event event).
Proof.
  destruct event as [|sym|sym|type]; try destruct sym; cbn;
    try destruct STC_SHOW_GHOST_PIECE; try destruct STC_AUTO_ROTATION;
    cbn; split; try lia; repeat constructor.
Qed.

End Events.

(** X11: [processEvents] calls the engine at most once for each record it
    drains and calls nothing but the two event entry points; an empty queue
    gives no call. *)
Theorem processEvents_bounded {BS : BuildSwitches}
    (queue : list SDL.Event) :
  (List.length (processEvents queue) <= List.length queue)%nat
  /\ Forall (fun c => is_event c = true) (processEvents queue)
  /\ (queue = [] -> processEvents queue = []).
Proof.
  split; [|split].
  - induction queue as [|event queue IH]; [cbn; lia|].
    cbn [processEvents List.length]. rewrite length_app.
    pose proof (proj1 (on_event_bounded event)). lia.
  - rewrite processEvents_flat_map. apply Forall_flat_map_all.
    intros event. apply on_event_bounded.
  - intros ->. reflexivity.
Qed.

Lemma processEvents_bounded_witness :
  processEvents (BS := Sample.switches) [] = [].
Proof.
  apply (proj2 (proj2 (processEvents_bounded (BS := Sample.switches) []))).
  reflexivity.
Defined.

(** X12: the engine is told that an event starts exactly when the quit
    signal was drained (for QUIT) or a key bound to that event in the table
    went down; in particular SHOW_SHADOW starts only in a build that shows
    ghost pieces. *)
Theorem processEvents_starts {BS : BuildSwitches}
    (queue : list SDL.Event) (e : EventType) :
  (In (onEventStart e) (processEvents queue)
   <-> (e = EVENT_QUIT /\ In SDL.SDL_QUIT queue)
       \/ exists sym, In (SDL.SDL_KEYDOWN sym) queue
                      /\ In (sym, e) key_table)
  /\ (In (onEventStart EVENT_SHOW_SHADOW) (processEvents queue) ->
      STC_SHOW_GHOST_PIECE = true).
Proof.
  assert (Hiff : In (onEventStart e) (processEvents queue)
                 <-> (e = EVENT_QUIT /\ In SDL.SDL_QUIT queue)
                     \/ exists sym, In (SDL.SDL_KEYDOWN sym) queue
                                    /\ In (sym, e) key_table).
  { rewrite processEvents_flat_map, in_flat_map. split.
    - intros (event & Hevent & Hin).
      destruct event as [|sym|sym|type]; cbn [on_event] in Hin.
      + destruct Hin as [Hin|[]]. inversion Hin; subst. left. tauto.
      + apply on_SDL_KEYDOWN_inv in Hin. destruct Hin as (e' & Heq & Hkey).
        inversion Heq; subst e'. right. exists sym. tauto.
      + apply on_SDL_KEYUP_inv in Hin. destruct Hin as (e' & Heq & _).
        discriminate Heq.
      + contradiction.
    - intros [[-> Hquit]|(sym & Hdown & Hkey)].
      + exists SDL.SDL_QUIT. split; [exact Hquit | left; reflexivity].
      + exists (SDL.SDL_KEYDOWN sym). split; [exact Hdown|].
        cbn [on_event]. rewrite (key_table_down sym e Hkey).
        left. reflexivity. }
  split; [exact Hiff|].
  rewrite processEvents_flat_map, in_flat_map.
  intros (event & _ & Hin).
  destruct event as [|sym|sym|type]; cbn [on_event] in Hin.
  - destruct Hin as [Hin|[]]. discriminate Hin.
  - destruct sym; cbn [on_SDL_KEYDOWN] in Hin;
      try (destruct Hin as [Hin|[]]; discriminate Hin);
      try contradiction.
    destruct STC_SHOW_GHOST_PIECE; [reflexivity | contradiction].
  - apply on_SDL_KEYUP_inv in Hin. destruct Hin as (e' & Heq & _).
    discriminate Heq.
  - contradiction.
Qed.

Lemma processEvents_starts_witness :
  In (onEventStart EVENT_DROP)
     (processEvents (BS := Sample.switches)
        [SDL.SDL_KEYUP SDL.SDLK_a; SDL.SDL_KEYDOWN SDL.SDLK_SPACE]).
Proof.
  apply (proj1 (processEvents_starts (BS := Sample.switches)
                  [SDL.SDL_KEYUP SDL.SDLK_a; SDL.SDL_KEYDOWN SDL.SDLK_SPACE]
                  EVENT_DROP)).
  right. exists SDL.SDLK_SPACE. split; cbn; tauto.
Defined.

(** X13: the engine is told that an event ends exactly when a key bound to
    it in the table came up and the event is a move left, right or down, or
    a rotation in a build with auto rotation; the end of any other event is
    never reported. *)
Theorem processEvents_ends {BS : BuildSwitches}
    (queue : list SDL.Event) (e : EventType) :
  In (onEventEnd e) (processEvents queue)
  <-> (exists sym, In (SDL.SDL_KEYUP sym) queue /\ In (sym, e) key_table)
      /\ (held_event e = true
          \/ (e = EVENT_ROTATE_CW /\ STC_AUTO_ROTATION = true)).
Proof.
  rewrite processEvents_flat_map, in_flat_map. split.
  - intros (event & Hevent & Hin).
    destruct event as [|sym|sym|type]; cbn [on_event] in Hin.
    + destruct Hin as [Hin|[]]. discriminate Hin.
    + apply on_SDL_KEYDOWN_inv in Hin. destruct Hin as (e' & Heq & _).
      discriminate Heq.
    + apply on_SDL_KEYUP_inv in Hin.
      destruct Hin as (e' & Heq & Hkey & Hheld).
      inversion Heq; subst e'. split; [exists sym; tauto | exact Hheld].
    + contradiction.
  - intros [(sym & Hup & Hkey) Hheld].
    exists (SDL.SDL_KEYUP sym). split; [exact Hup|].
    cbn [on_event]. rewrite (key_table_up sym e Hkey Hheld).
    left. reflexivity.
Qed.

Lemma processEvents_ends_witness :
  In (onEventEnd EVENT_MOVE_DOWN)
     (processEvents (BS := Sample.switches)
        [SDL.SDL_KEYDOWN SDL.SDLK_s; SDL.SDL_KEYUP SDL.SDLK_s]).
Proof.
  apply (proj2 (processEvents_ends (BS := Sample.switches)
                  [SDL.SDL_KEYDOWN SDL.SDLK_s; SDL.SDL_KEYUP SDL.SDLK_s]
                  EVENT_MOVE_DOWN)).
  split; [exists SDL.SDLK_s; split; cbn; tauto | left; reflexivity].
Defined.

(** X14: the letter keys w, a, s, d are doubles of the arrow keys: a queue
    in which letters are replaced by their arrows gives the same calls, and
    so do two queues put one after the other as when drained apart. *)
Theorem processEvents_arrows {BS : BuildSwitches}
    (queue queue' : list SDL.Event) :
  processEvents (map with_arrows queue) = processEvents queue
  /\ processEvents (queue ++ queue')
     = processEvents queue ++ processEvents queue'.
Proof.
  rewrite !processEvents_flat_map. split.
  - rewrite flat_map_concat_map, map_map, <- flat_map_concat_map.
    apply flat_map_ext. intros event. apply on_event_with_arrows.
  - apply flat_map_app.
Qed.

(** ** Initialisation and shutdown *)

Section Lifecycle.

Context {PC : PlatformConstants}.

(** What [init] returns, leaves in the members and has called, by the first
    step that fails. *)
Lemma init_outcome (env : Environment) (self : PlatformSdl)
    (game : pointer) :
  let acquired :=
    set_mBmpNumbers (IMG_Load_result env STC_BMP_NUMBERS)
      (set_mBmpBack (IMG_Load_result env STC_BMP_BACKGROUND)
         (set_mBmpTiles (IMG_Load_result env STC_BMP_TILE_BLOCKS)
            (set_mScreen (SDL_SetVideoMode_result env) self))) in
  init env self game
  = match first_failure env with
    | Some PlatformInit =>
        (ERROR_PLATFORM, self, firstn 2 (init_sequence env))
    | Some VideoSurface =>
        (ERROR_NO_VIDEO, set_mScreen (SDL_SetVideoMode_result env) self,
         firstn 3 (init_sequence env))
    | Some ImageLoad =>
        (ERROR_NO_IMAGES, acquired, firstn 7 (init_sequence env))
    | Some MixerOpen =>
        (ERROR_PLATFORM, acquired, firstn 8 (init_sequence env))
    | None =>
        (ERROR_NONE,
         set_mGame game
           (set_mSoundDrop (Mix_LoadWAV_result env STC_SND_DROP)
              (set_mSoundLine (Mix_LoadWAV_result env STC_SND_LINE)
                 (set_mMusic (Mix_LoadMUS_result env STC_SND_MUSIC)
                    acquired))),
         init_sequence env)
    end.
Proof.
  unfold init, first_failure, init_body, Member.run, Member.bind,
    Member.call, Member.assign, Member.return_, Member.ret.
  cbn.
  destruct (SDL_Init_result env <? 0); [reflexivity|].
  destruct (is_NULL (SDL_SetVideoMode_result env)); [reflexivity|].
  destruct (is_NULL (IMG_Load_result env STC_BMP_TILE_BLOCKS)
            || is_NULL (IMG_Load_result env STC_BMP_BACKGROUND)
            || is_NULL (IMG_Load_result env STC_BMP_NUMBERS));
    [reflexivity|].
  destruct (negb (Mix_OpenAudio_result env =? 0)); reflexivity.
Qed.

Lemma is_NULL_false (p : pointer) : is_NULL p = false <-> p <> NULL.
Proof. unfold NULL. destruct p; cbn; split; intros H; congruence. Qed.

Lemma is_NULL_true (p : pointer) : is_NULL p = true <-> p = NULL.
Proof. unfold NULL. destruct p; cbn; split; intros H; congruence. Qed.

(** What the machine answered when no tested step failed, and when one
    did. *)
Lemma first_failure_cases (env : Environment) :
  match first_failure env with
  | Some PlatformInit => SDL_Init_result env < 0
  | Some VideoSurface =>
      0 <= SDL_Init_result env /\ SDL_SetVideoMode_result env = NULL
  | Some ImageLoad =>
      0 <= SDL_Init_result env /\ SDL_SetVideoMode_result env <> NULL
      /\ (IMG_Load_result env STC_BMP_TILE_BLOCKS = NULL
          \/ IMG_Load_result env STC_BMP_BACKGROUND = NULL
          \/ IMG_Load_result env STC_BMP_NUMBERS = NULL)
  | Some MixerOpen =>
      0 <= SDL_Init_result env /\ SDL_SetVideoMode_result env <> NULL
      /\ IMG_Load_result env STC_BMP_TILE_BLOCKS <> NULL
      /\ IMG_Load_result env STC_BMP_BACKGROUND <> NULL
      /\ IMG_Load_result env STC_BMP_NUMBERS <> NULL
      /\ Mix_OpenAudio_result env <> 0
  | None =>
      0 <= SDL_Init_result env /\ SDL_SetVideoMode_result env <> NULL
      /\ IMG_Load_result env STC_BMP_TILE_BLOCKS <> NULL
      /\ IMG_Load_result env STC_BMP_BACKGROUND <> NULL
      /\ IMG_Load_result env STC_BMP_NUMBERS <> NULL
      /\ Mix_OpenAudio_result env = 0
  end.
Proof.
  unfold first_failure.
  destruct (Z.ltb_spec (SDL_Init_result env) 0) as [Hinit|Hinit];
    [exact Hinit|].
  destruct (is_NULL (SDL_SetVideoMode_result env)) eqn:Hvideo.
  { apply is_NULL_true in Hvideo. tauto. }
  apply is_NULL_false in Hvideo.
  destruct (is_NULL (IMG_Load_result env STC_BMP_TILE_BLOCKS)) eqn:Ht;
    [apply is_NULL_true in Ht; cbn; tauto|].
  destruct (is_NULL (IMG_Load_result env STC_BMP_BACKGROUND)) eqn:Hb;
    [apply is_NULL_true in Hb; cbn; tauto|].
  destruct (is_NULL (IMG_Load_result env STC_BMP_NUMBERS)) eqn:Hn;
    [apply is_NULL_true in Hn; cbn; tauto|].
  apply is_NULL_false in Ht, Hb, Hn. cbn [orb].
  destruct (Z.eqb_spec (Mix_OpenAudio_result env) 0) as [Hmix|Hmix];
    cbn [negb]; tauto.
Qed.

End Lifecycle.

Lemma init_success_members {PC : PlatformConstants}
    (env : Environment) (self : PlatformSdl) (game : pointer) :
  init_status env self game = ERROR_NONE ->
  let after := init_members env self game in
  (mScreen after = SDL_SetVideoMode_result env /\ mScreen after <> NULL)
  /\ (mBmpTiles after = IMG_Load_result env STC_BMP_TILE_BLOCKS
      /\ mBmpTiles after <> NULL)
  /\ (mBmpBack after = IMG_Load_result env STC_BMP_BACKGROUND
      /\ mBmpBack after <> NULL)
  /\ (mBmpNumbers after = IMG_Load_result env STC_BMP_NUMBERS
      /\ mBmpNumbers after <> NULL)
  /\ mMusic after = Mix_LoadMUS_result env STC_SND_MUSIC
  /\ mSoundLine after = Mix_LoadWAV_result env STC_SND_LINE
  /\ mSoundDrop after = Mix_LoadWAV_result env STC_SND_DROP
  /\ mGame after = game.
Proof.
  unfold init_status, init_members.
  pose proof (init_outcome env self game) as Hout. cbv zeta in Hout.
  pose proof (first_failure_cases env) as Hcase.
  rewrite Hout.
  destruct (first_failure env) as [[]|]; cbn [fst snd];
    try discriminate.
  intros _. cbn. tauto.
Qed.

(** X15: when [init] returns [ERROR_NONE], the screen and the three
    atlases are the surfaces the machine gave and none of them is null, the
    audio members hold whatever the three loads gave (null or not), and
    [mGame] is the engine passed in. *)
Theorem init_success {PC : PlatformConstants}
    (env : Environment) (self : PlatformSdl) (game : pointer) :
  init_status env self game = ERROR_NONE ->
  let after := init_members env self game in
  (mScreen after = SDL_SetVideoMode_result env /\ mScreen after <> NULL)
  /\ (mBmpTiles after = IMG_Load_result env STC_BMP_TILE_BLOCKS
      /\ mBmpTiles after <> NULL)
  /\ (mBmpBack after = IMG_Load_result env STC_BMP_BACKGROUND
      /\ mBmpBack after <> NULL)
  /\ (mBmpNumbers after = IMG_Load_result env STC_BMP_NUMBERS
      /\ mBmpNumbers after <> NULL)
  /\ mMusic after = Mix_LoadMUS_result env STC_SND_MUSIC
  /\ mSoundLine after = Mix_LoadWAV_result env STC_SND_LINE
  /\ mSoundDrop after = Mix_LoadWAV_result env STC_SND_DROP
  /\ mGame after = game.
Proof.
  intros Hok. unfold init_status, init_members in *.
  pose proof (init_outcome env self game) as Hout. cbv zeta in Hout.
  pose proof (first_failure_cases env) as Hcase.
  rewrite Hout in Hok |- *.
  destruct (first_failure env) as [[]|]; cbn [fst snd] in Hok |- *;
    try discriminate Hok.
  cbn. tauto.
Qed.

Lemma init_success_witness :
  mBmpNumbers (init_members (PC := Sample.platform_constants)
                 Sample.machine_without_music Sample.blank
                 (Some 8%positive))
  = Some 4%positive
  /\ mMusic (init_members (PC := Sample.platform_constants)
               Sample.machine_without_music Sample.blank
               (Some 8%positive))
     = NULL.
Proof.
  pose proof (init_success (PC := Sample.platform_constants)
                Sample.machine_without_music Sample.blank
                (Some 8%positive) eq_refl) as Hthm.
  cbv zeta in Hthm. split; apply Hthm.
Defined.

(** X16: when [init] returns a failure, it has started no music and made
    no audio load, and it leaves [mGame] and the three audio members as
    they were: the adapter is not bound to the engine. *)
Theorem init_failure {PC : PlatformConstants}
    (env : Environment) (self : PlatformSdl) (game : pointer) :
  init_status env self game <> ERROR_NONE ->
  let after := init_members env self game in
  mGame after = mGame self
  /\ mMusic after = mMusic self
  /\ mSoundLine after = mSoundLine self
  /\ mSoundDrop after = mSoundDrop self
  /\ count is_play_music (init_calls env self game) = 0%nat
  /\ count is_audio_load (init_calls env self game) = 0%nat.
Proof.
  unfold init_status, init_members, init_calls.
  pose proof (init_outcome env self game) as Hout. cbv zeta in Hout.
  rewrite Hout.
  destruct (first_failure env) as [[]|]; cbn [fst snd]; intros Hfail;
    try (exfalso; apply Hfail; reflexivity);
    repeat split.
Qed.

Lemma init_failure_witness :
  mGame (init_members (PC := Sample.platform_constants)
           Sample.machine_without_mixer Sample.blank (Some 8%positive))
  = NULL
  /\ count is_play_music
       (init_calls (PC := Sample.platform_constants)
          Sample.machine_without_mixer Sample.blank (Some 8%positive))
     = 0%nat.
Proof.
  pose proof (init_failure (PC := Sample.platform_constants)
                Sample.machine_without_mixer Sample.blank
                (Some 8%positive) ltac:(discriminate)) as Hthm.
  cbv zeta in Hthm. split; apply Hthm.
Defined.

(** X17: [init] neither rolls back nor cuts the image loads short: when it
    returns [ERROR_NO_IMAGES] all three images have been requested, the
    Surface has been created and stays in [mScreen], the image members hold
    the three answers, of which at least one is null, and the mixer has not
    been opened. *)
Theorem init_no_images {PC : PlatformConstants}
    (env : Environment) (self : PlatformSdl) (game : pointer) :
  init_status env self game = ERROR_NO_IMAGES ->
  let after := init_members env self game in
  count is_image_load (init_calls env self game) = 3%nat
  /\ count is_mixer_open (init_calls env self game) = 0%nat
  /\ (mScreen after = SDL_SetVideoMode_result env /\ mScreen after <> NULL)
  /\ mBmpTiles after = IMG_Load_result env STC_BMP_TILE_BLOCKS
  /\ mBmpBack after = IMG_Load_result env STC_BMP_BACKGROUND
  /\ mBmpNumbers after = IMG_Load_result env STC_BMP_NUMBERS
  /\ (mBmpTiles after = NULL \/ mBmpBack after = NULL
      \/ mBmpNumbers after = NULL).
Proof.
  unfold init_status, init_members, init_calls.
  pose proof (init_outcome env self game) as Hout. cbv zeta in Hout.
  pose proof (first_failure_cases env) as Hcase.
  rewrite Hout.
  destruct (first_failure env) as [[]|]; cbn [fst snd];
    try discriminate.
  intros _. cbn. tauto.
Qed.

(** X18: [ERROR_PLATFORM] stands for two states of the adapter: either
    [SDL_Init] failed, nothing else was called and no member was touched,
    or the mixer could not be opened, and then the Surface and the three
    atlases have all been acquired and are held in the members. *)
Theorem init_platform_error {PC : PlatformConstants}
    (env : Environment) (self : PlatformSdl) (game : pointer) :
  init_status env self game = ERROR_PLATFORM ->
  let after := init_members env self game in
  (SDL_Init_result env < 0
   /\ after = self
   /\ List.length (init_calls env self game) = 2%nat)
  \/ (Mix_OpenAudio_result env <> 0
      /\ mScreen after <> NULL /\ mBmpTiles after <> NULL
      /\ mBmpBack after <> NULL /\ mBmpNumbers after <> NULL
      /\ count is_mixer_open (init_calls env self game) = 1%nat
      /\ List.length (init_calls env self game) = 8%nat).
Proof.
  unfold init_status, init_members, init_calls.
  pose proof (init_outcome env self game) as Hout. cbv zeta in Hout.
  pose proof (first_failure_cases env) as Hcase.
  rewrite Hout.
  destruct (first_failure env) as [[]|]; cbn [fst snd];
    try discriminate; intros _; cbn.
  - left. tauto.
  - right. tauto.
Qed.

Lemma init_no_images_witness :
  count is_image_load
    (init_calls (PC := Sample.platform_constants)
       Faults.machine_without_numbers Sample.blank (Some 8%positive))
  = 3%nat
  /\ mScreen (init_members (PC := Sample.platform_constants)
                Faults.machine_without_numbers Sample.blank
                (Some 8%positive))
     = Some 1%positive.
Proof.
  pose proof (init_no_images (PC := Sample.platform_constants)
                Faults.machine_without_numbers Sample.blank
                (Some 8%positive) eq_refl) as Hthm.
  cbv zeta in Hthm. split; apply Hthm.
Defined.

Lemma init_platform_error_witness :
  (SDL_Init_result Sample.machine_without_mixer < 0
   /\ init_members (PC := Sample.platform_constants)
        Sample.machine_without_mixer Sample.blank (Some 8%positive)
      = Sample.blank
   /\ List.length (init_calls (PC := Sample.platform_constants)
                     Sample.machine_without_mixer Sample.blank
                     (Some 8%positive)) = 2%nat)
  \/ (Mix_OpenAudio_result Sample.machine_without_mixer <> 0
      /\ mScreen (init_members (PC := Sample.platform_constants)
                    Sample.machine_without_mixer Sample.blank
                    (Some 8%positive)) <> NULL
      /\ mBmpTiles (init_members (PC := Sample.platform_constants)
                      Sample.machine_without_mixer Sample.blank
                      (Some 8%positive)) <> NULL
      /\ mBmpBack (init_members (PC := Sample.platform_constants)
                     Sample.machine_without_mixer Sample.blank
                     (Some 8%positive)) <> NULL
      /\ mBmpNumbers (init_members (PC := Sample.platform_constants)
                        Sample.machine_without_mixer Sample.blank
                        (Some 8%positive)) <> NULL
      /\ count is_mixer_open
           (init_calls (PC := Sample.platform_constants)
              Sample.machine_without_mixer Sample.blank (Some 8%positive))
         = 1%nat
      /\ List.length (init_calls (PC := Sample.platform_constants)
                        Sample.machine_without_mixer Sample.blank
                        (Some 8%positive)) = 8%nat).
Proof.
  exact (init_platform_error (PC := Sample.platform_constants)
           Sample.machine_without_mixer Sample.blank (Some 8%positive)
           eq_refl).
Defined.

(** X19: after a successful [init] every blit of [renderGame] reads a
    surface that is not null and writes the Surface [SDL_SetVideoMode]
    gave, which is not null either. *)
Theorem init_then_renderGame {GC : GameConstants} {PC : PlatformConstants}
    {SV : Blitter} {BS : BuildSwitches}
    (env : Environment) (self : PlatformSdl) (game : pointer) (g : Game) :
  init_status env self game = ERROR_NONE ->
  Forall (fun src => src <> NULL)
         (sources (renderGame (init_members env self game) g))
  /\ Forall (fun dst => dst = SDL_SetVideoMode_result env /\ dst <> NULL)
            (targets (renderGame (init_members env self game) g)).
Proof.
  intros Hok.
  pose proof (init_success_members env self game Hok) as Hm.
  cbv zeta in Hm.
  destruct Hm as ((Hscreen & Hs) & (_ & Ht) & (_ & Hb) & (_ & Hn) & _).
  pose proof (atlas_to_screen_frame (init_members env self game) g) as Haim.
  split.
  - apply Forall_forall. intros p Hp. unfold sources in Hp.
    apply in_flat_map in Hp. destruct Hp as (c & Hc & Hp).
    apply (proj1 (Forall_forall _ _) Haim) in Hc.
    destruct c; try contradiction. destruct Hp as [<-|[]].
    destruct Hc as [_ [->|[->| ->]]]; assumption.
  - apply Forall_forall. intros p Hp. unfold targets in Hp.
    apply in_flat_map in Hp. destruct Hp as (c & Hc & Hp).
    apply (proj1 (Forall_forall _ _) Haim) in Hc.
    destruct c; try contradiction. destruct Hp as [<-|[]].
    destruct Hc as [-> _]. split; [exact Hscreen | exact Hs].
Qed.

Lemma init_then_renderGame_witness :
  Forall (fun src => src <> NULL)
    (sources
       (renderGame (GC := Sample.game_constants)
          (PC := Sample.platform_constants) (BS := Sample.switches)
          (SV := Clipped.blitter)
          (init_members (PC := Sample.platform_constants)
             Sample.machine Sample.blank (Some 8%positive))
          Sample.changed)).
Proof.
  apply (init_then_renderGame (GC := Sample.game_constants)
           (PC := Sample.platform_constants) (BS := Sample.switches)
           (SV := Clipped.blitter)
           Sample.machine Sample.blank (Some 8%positive) Sample.changed
           eq_refl).
Defined.

(** X20: [end] after a successful [init] hands to [SDL_FreeSurface] the
    surfaces [init] acquired, the three atlases and then the screen, each
    once in the list and none null; the music and the two sounds, which
    [init] loaded as well, are handed to no call of [end]. *)
Theorem init_then_end {PC : PlatformConstants}
    (env : Environment) (self : PlatformSdl) (game : pointer) :
  init_status env self game = ERROR_NONE ->
  freed (end_ (init_members env self game))
  = [ IMG_Load_result env STC_BMP_TILE_BLOCKS;
      IMG_Load_result env STC_BMP_BACKGROUND;
      IMG_Load_result env STC_BMP_NUMBERS;
      SDL_SetVideoMode_result env ]
  /\ Forall (fun p => p <> NULL) (freed (end_ (init_members env self game)))
  /\ count is_audio_load (init_calls env self game) = 3%nat
  /\ end_ (init_members env self game)
     = map SDL_FreeSurface (freed (end_ (init_members env self game)))
       ++ [Mix_CloseAudio; SDL_Quit].
Proof.
  intros Hok.
  pose proof (init_success_members env self game Hok) as Hm.
  cbv zeta in Hm.
  destruct Hm as ((Hscreen & Hs) & (Htiles & Ht) & (Hback & Hb)
                  & (Hnum & Hn) & _).
  unfold end_, freed. cbn [flat_map app map].
  rewrite <- Hscreen, <- Htiles, <- Hback, <- Hnum.
  split; [reflexivity|]. split; [repeat constructor; assumption|].
  split; [|reflexivity].
  revert Hok. unfold init_status, init_calls.
  pose proof (init_outcome env self game) as Hout. cbv zeta in Hout.
  rewrite Hout.
  destruct (first_failure env) as [[]|]; cbn [fst snd];
    try discriminate.
  intros _. reflexivity.
Qed.

Lemma init_then_end_witness :
  freed (end_ (init_members (PC := Sample.platform_constants)
                 Sample.machine Sample.blank (Some 8%positive)))
  = [Some 2%positive; Some 3%positive; Some 4%positive; Some 1%positive].
Proof.
  apply (init_then_end (PC := Sample.platform_constants)
           Sample.machine Sample.blank (Some 8%positive) eq_refl).
Defined.

(** X21: [end] has no guard: after [init] failed to create the Surface,
    [end] passes the null screen to [SDL_FreeSurface], passes the image
    members as they were before [init], which never loaded them, and closes
    a mixer that was never opened. *)
Theorem init_no_video_then_end {PC : PlatformConstants}
    (env : Environment) (self : PlatformSdl) (game : pointer) :
  init_status env self game = ERROR_NO_VIDEO ->
  freed (end_ (init_members env self game))
  = [mBmpTiles self; mBmpBack self; mBmpNumbers self; NULL]
  /\ count is_image_load (init_calls env self game) = 0%nat
  /\ count is_mixer_open (init_calls env self game) = 0%nat
  /\ In Mix_CloseAudio (end_ (init_members env self game)).
Proof.
  unfold init_status, init_members, init_calls.
  pose proof (init_outcome env self game) as Hout. cbv zeta in Hout.
  pose proof (first_failure_cases env) as Hcase.
  rewrite Hout.
  destruct (first_failure env) as [[]|]; cbn [fst snd];
    try discriminate.
  intros _. destruct Hcase as [_ Hvideo].
  unfold end_, freed. cbn. rewrite Hvideo. tauto.
Qed.

Lemma init_no_video_then_end_witness :
  freed (end_ (init_members (PC := Sample.platform_constants)
                 Faults.machine_without_video Sample.self
                 (Some 8%positive)))
  = [Some 2%positive; Some 3%positive; Some 4%positive; NULL].
Proof.
  apply (init_no_video_then_end (PC := Sample.platform_constants)
           Faults.machine_without_video Sample.self (Some 8%positive)
           eq_refl).
Defined.

(** X22: after a successful [init] the two audio triggers each ask the
    mixer once, for any free channel and without repeat, to play what
    [init] loaded for them; [init] does not test those loads, so if the
    file of a sound was missing the trigger hands a null chunk to the
    mixer. *)
Theorem init_then_triggers {PC : PlatformConstants}
    (env : Environment) (self : PlatformSdl) (game : pointer) :
  init_status env self game = ERROR_NONE ->
  onLineCompleted (init_members env self game)
  = [Mix_PlayChannel (-1) (Mix_LoadWAV_result env STC_SND_LINE) 0]
  /\ onPieceDrop (init_members env self game)
     = [Mix_PlayChannel (-1) (Mix_LoadWAV_result env STC_SND_DROP) 0]
  /\ (Mix_LoadWAV_result env STC_SND_LINE = NULL ->
      onLineCompleted (init_members env self game)
      = [Mix_PlayChannel (-1) NULL 0])
  /\ (Mix_LoadWAV_result env STC_SND_DROP = NULL ->
      onPieceDrop (init_members env self game)
      = [Mix_PlayChannel (-1) NULL 0]).
Proof.
  intros Hok.
  pose proof (init_success_members env self game Hok) as Hm.
  cbv zeta in Hm. destruct Hm as (_ & _ & _ & _ & _ & Hline & Hdrop & _).
  unfold onLineCompleted, onPieceDrop. rewrite Hline, Hdrop.
  split; [reflexivity|]. split; [reflexivity|].
  split; intros ->; reflexivity.
Qed.

Lemma init_then_triggers_witness :
  init_status (PC := Sample.platform_constants)
              Faults.machine_without_line_sound Sample.blank
              (Some 8%positive) = ERROR_NONE
  /\ onLineCompleted
       (init_members (PC := Sample.platform_constants)
          Faults.machine_without_line_sound Sample.blank (Some 8%positive))
     = [Mix_PlayChannel (-1) NULL 0].
Proof.
  split; [reflexivity|].
  apply (init_then_triggers (PC := Sample.platform_constants)
           Faults.machine_without_line_sound Sample.blank (Some 8%positive)
           eq_refl).
  reflexivity.
Defined.
